(** * Billing-cycle advisory and pending-confirmation workflow of the
      purchase bot (Telegram + Google Sheets)

    The development embeds the date arithmetic, the card ranking and the
    three callback handlers of the bot ([confirm_purchase],
    [confirm_purchase_ok], [cancel_purchase]) and states the properties
    C1..C10 about them.  A second part covers the date helpers,
    the ranking, the handlers as a state machine, the periodic sweep, the
    text of a date and the parsing of the /compra command.

    Conventions of the embedding.
    - A JavaScript [Date] is represented by its local time value, an
      integer number of milliseconds.  The time zone is taken to have a
      fixed offset from UTC (no daylight-saving transitions), so local time
      values are a translation of UTC ones and every local midnight is a
      multiple of [msPerDay].  Time values are exact integers; the range
      limit of [Date] (8.64e15 ms around the epoch) is outside the model.
    - The calendar functions follow ECMA-262 (Day, DayFromYear, YearFromTime,
      MonthFromTime, DateFromTime, MakeDay, MakeDate), including the
      two-digit-year rule of the [Date(year, month, day)] constructor.
    - Handlers are modelled as run to completion (no interleaving at
      [await]); calls on the Telegram context are recorded in a trace and
      are assumed not to throw; the append to the spreadsheet either
      succeeds or throws, as decided by the environment. *)

From Stdlib Require Import ZArith Lia List Bool String.
From Stdlib Require QArith.
From Stdlib Require Import Ascii DecimalString DecimalZ.
From Stdlib Require DecimalPos.
From Stdlib Require Import Sorting.Sorted Sorting.Permutation.
From stdpp Require Import gmap strings.

Import ListNotations.
Local Open Scope Z_scope.

(** ** ECMAScript calendar arithmetic *)

Module JSDate.

Definition msPerDay : Z := 86400000.

(** Day(t) = floor(t / msPerDay), TimeWithinDay(t) = t modulo msPerDay. *)
Definition Day (t : Z) : Z := t / msPerDay.
Definition TimeWithinDay (t : Z) : Z := t mod msPerDay.

Definition DaysInYear (y : Z) : Z :=
  if negb (y mod 4 =? 0) then 365
  else if negb (y mod 100 =? 0) then 366
  else if negb (y mod 400 =? 0) then 365
  else 366.

Definition DayFromYear (y : Z) : Z :=
  365 * (y - 1970) + (y - 1969) / 4 - (y - 1901) / 100 + (y - 1601) / 400.

(** 1 in a leap year, 0 otherwise. *)
Definition LeapOfYear (y : Z) : Z := DaysInYear y - 365.

(** The largest [y] with [DayFromYear y <= d].  400 years have 146097 days,
    which gives an estimate that is off by at most one year. *)
Definition YearFromDay (d : Z) : Z :=
  let y0 := 1970 + (400 * d) / 146097 in
  if DayFromYear (y0 + 1) <=? d then y0 + 1
  else if DayFromYear y0 <=? d then y0
  else y0 - 1.

Definition YearFromTime (t : Z) : Z := YearFromDay (Day t).
Definition InLeapYear (t : Z) : Z := LeapOfYear (YearFromTime t).
Definition DayWithinYear (t : Z) : Z := Day t - DayFromYear (YearFromTime t).

(** Number of days of the year before month [m] (0 = January). *)
Definition monthOffset (m leap : Z) : Z :=
  match m with
  | 0 => 0
  | 1 => 31
  | 2 => 59 + leap
  | 3 => 90 + leap
  | 4 => 120 + leap
  | 5 => 151 + leap
  | 6 => 181 + leap
  | 7 => 212 + leap
  | 8 => 243 + leap
  | 9 => 273 + leap
  | 10 => 304 + leap
  | 11 => 334 + leap
  | _ => 365 + leap
  end.

Definition monthOfYearDay (dw leap : Z) : Z :=
  if dw <? 31 then 0
  else if dw <? 59 + leap then 1
  else if dw <? 90 + leap then 2
  else if dw <? 120 + leap then 3
  else if dw <? 151 + leap then 4
  else if dw <? 181 + leap then 5
  else if dw <? 212 + leap then 6
  else if dw <? 243 + leap then 7
  else if dw <? 273 + leap then 8
  else if dw <? 304 + leap then 9
  else if dw <? 334 + leap then 10
  else 11.

Definition MonthFromTime (t : Z) : Z :=
  monthOfYearDay (DayWithinYear t) (InLeapYear t).

Definition DateFromTime (t : Z) : Z :=
  DayWithinYear t - monthOffset (MonthFromTime t) (InLeapYear t) + 1.

(** MakeDay(year, month, date): months outside 0..11 carry into the year,
    and the date is added to the first day of the month without any
    clamping, so day 31 of a 30-day month is day 1 of the next one. *)
Definition MakeDay (year month date : Z) : Z :=
  let ym := year + month / 12 in
  let mn := month mod 12 in
  DayFromYear ym + monthOffset mn (LeapOfYear ym) + date - 1.

Definition MakeDate (day time : Z) : Z := day * msPerDay + time.

(** Methods of a Date object whose local time value is [t]. *)
Definition getFullYear (t : Z) : Z := YearFromTime t.
Definition getMonth (t : Z) : Z := MonthFromTime t.
Definition getDate (t : Z) : Z := DateFromTime t.

(** [new Date(year, month, day)]: years 0..99 mean 1900..1999. *)
Definition twoDigitYear (year : Z) : Z :=
  if (0 <=? year) && (year <=? 99) then 1900 + year else year.

Definition newDate (year month day : Z) : Z :=
  MakeDate (MakeDay (twoDigitYear year) month day) 0.

(** [d.setMonth(month)] keeps the day of the month and the time of day. *)
Definition setMonth (t month : Z) : Z :=
  MakeDate (MakeDay (YearFromTime t) month (DateFromTime t)) (TimeWithinDay t).

(** [d.setHours(0, 0, 0, 0)]. *)
Definition setHours0 (t : Z) : Z := MakeDate (Day t) 0.

(** [Math.ceil(a / b)] for integers [a] and positive [b]. *)
Definition ceilDiv (a b : Z) : Z := - ((- a) / b).

(** Total month index (12 * year + month) and the day number of the first
    day of the month with a given index. *)
Definition monthIndex (t : Z) : Z := 12 * YearFromTime t + MonthFromTime t.
Definition firstDay (k : Z) : Z := MakeDay 0 k 1.

(** A date written as a civil triple (month 1..12), for readable examples. *)
Definition ymd (y m d : Z) : Z := MakeDate (MakeDay y (m - 1) d) 0.

End JSDate.

Import JSDate.

(** ** Cycle catalog and configuration constants *)

Record CycleConfig := { cutDay : Z; dueDay : Z; dueOffset : Z }.

(** The invariant of the data model: days of the month and an offset of zero
    or one month. *)
Definition validCycle (c : CycleConfig) : Prop :=
  1 <= cutDay c <= 31 /\ 1 <= dueDay c <= 31 /\ (dueOffset c = 0 \/ dueOffset c = 1).

(** The catalog object, as the ordered list of its own properties
    (Object.keys enumerates string keys in insertion order). *)
Definition CARD_CYCLE : list (string * CycleConfig) :=
  [ ("BBVA"%string,        {| cutDay := 24; dueDay := 13; dueOffset := 1 |});
    ("RAPPICARD"%string,   {| cutDay := 6;  dueDay := 26; dueOffset := 0 |});
    ("HSBC"%string,        {| cutDay := 16; dueDay := 5;  dueOffset := 1 |});
    ("BANAMEX"%string,     {| cutDay := 6;  dueDay := 26; dueOffset := 0 |});
    ("NU"%string,          {| cutDay := 7;  dueDay := 19; dueOffset := 0 |});
    ("MERCADOPAGO"%string, {| cutDay := 13; dueDay := 23; dueOffset := 0 |}) ].

Definition SKIP_CUT_VALIDATION : gset string :=
  {[ "CAPITAL"%string; "PRESTAMO"%string ]}.

Definition IMPROVEMENT_THRESHOLD_DAYS : Z := 5.

Definition PENDING_TTL_MS : Z := 3 * 60 * 1000.

(** [catalog[bank]].  Bank names reach the catalog upper-cased by the
    /compra handler, so no inherited property of the object (all of which
    have lower-case letters in their names) can be hit: the lookup is a
    lookup among the own properties. *)
Fixpoint lookupCycle (catalog : list (string * CycleConfig)) (bank : string)
  : option CycleConfig :=
  match catalog with
  | [] => None
  | (k, c) :: rest => if String.eqb k bank then Some c else lookupCycle rest bank
  end.

(** ** Payment window calculator *)

Definition normalizeToDay (date : Z) : Z := setHours0 date.

Definition addMonths (date months : Z) : Z :=
  setHours0 (setMonth date (getMonth date + months)).

Definition buildDateYMDay (baseDate day : Z) : Z :=
  setHours0 (newDate (getFullYear baseDate) (getMonth baseDate) day).

Definition getNextCutDate (today cutDay : Z) : Z :=
  let cutThisMonth := buildDateYMDay today cutDay in
  if today <=? cutThisMonth then cutThisMonth
  else buildDateYMDay (addMonths today 1) cutDay.

Record PaymentWindow :=
  { cutDate : Z; dueDate : Z; daysToPay : Z; cfg : CycleConfig }.

(** The body of getPaymentWindow once the cycle [c] of the bank is known. *)
Definition paymentWindow (c : CycleConfig) (today : Z) : PaymentWindow :=
  let t := normalizeToDay today in
  let cutDate := getNextCutDate t (cutDay c) in
  let dueBase := addMonths cutDate (dueOffset c) in
  let dueDate := buildDateYMDay dueBase (dueDay c) in
  let dueDate :=
    if dueDate <=? cutDate
    then buildDateYMDay (addMonths dueBase 1) (dueDay c)
    else dueDate in
  let daysToPay := Z.max 0 (ceilDiv (dueDate - t) (1000 * 60 * 60 * 24)) in
  {| cutDate := cutDate; dueDate := dueDate; daysToPay := daysToPay; cfg := c |}.

Definition getPaymentWindowIn (catalog : list (string * CycleConfig))
    (bank : string) (today : Z) : option PaymentWindow :=
  match lookupCycle catalog bank with
  | None => None
  | Some c => Some (paymentWindow c today)
  end.

Definition getPaymentWindow (bank : string) (today : Z) : option PaymentWindow :=
  getPaymentWindowIn CARD_CYCLE bank today.

(** ** Card ranking *)

(** An element [{ bank, ...w }] of the ranking. *)
Record RankedCard := { rankedBank : string; rankedWindow : PaymentWindow }.

Definition rankedDays (x : RankedCard) : Z := daysToPay (rankedWindow x).

(** [.filter(Boolean)] on an array of objects and nulls. *)
Fixpoint filterBoolean {A : Type} (l : list (option A)) : list A :=
  match l with
  | [] => []
  | Some x :: rest => x :: filterBoolean rest
  | None :: rest => filterBoolean rest
  end.

(** Array.prototype.sort with a comparator: a stable sort (as ECMAScript
    requires since the 2019 edition) that puts [a] before [b] when
    [cmp a b < 0] and keeps elements that compare equal in their original
    order.  Elements are inserted from the right, each one in front of the
    first element it does not have to follow. *)
Fixpoint insertBy {A : Type} (cmp : A -> A -> Z) (x : A) (l : list A) : list A :=
  match l with
  | [] => [x]
  | y :: rest => if cmp x y <=? 0 then x :: l else y :: insertBy cmp x rest
  end.

Definition sortBy {A : Type} (cmp : A -> A -> Z) (l : list A) : list A :=
  fold_right (insertBy cmp) [] l.

Definition notExcluded (ex : gset string) (bank : string) : bool :=
  negb (bool_decide (bank ∈ ex)).

(** The array before the final sort, in catalog order. *)
Definition rankCandidatesIn (catalog : list (string * CycleConfig))
    (today : Z) (excludeBanks : list string) : list RankedCard :=
  let ex : gset string := list_to_set excludeBanks in
  let t := normalizeToDay today in
  filterBoolean
    (map (fun bank =>
            match getPaymentWindowIn catalog bank t with
            | Some w => Some {| rankedBank := bank; rankedWindow := w |}
            | None => None
            end)
         (List.filter (notExcluded ex) (map fst catalog))).

Definition rankCardsByDaysToPayIn (catalog : list (string * CycleConfig))
    (today : Z) (excludeBanks : list string) : list RankedCard :=
  sortBy (fun a b => rankedDays b - rankedDays a)
         (rankCandidatesIn catalog today excludeBanks).

Definition rankCardsByDaysToPay (today : Z) (excludeBanks : list string)
  : list RankedCard :=
  rankCardsByDaysToPayIn CARD_CYCLE today excludeBanks.

(** The order of a ranking: larger keys first. *)
Definition descending {A : Type} (key : A -> Z) (a b : A) : Prop :=
  key b <= key a.

(** The test "this bank has exactly [v] days to pay on [today]". *)
Definition hasDaysToPay (today v : Z) (bank : string) : bool :=
  match getPaymentWindow bank today with
  | Some w => daysToPay w =? v
  | None => false
  end.

(** ** Pending purchases and the spreadsheet *)

Inductive Stage := PREVIEW | WARNED.

Definition Stage_eqb (a b : Stage) : bool :=
  match a, b with
  | PREVIEW, PREVIEW | WARNED, WARNED => true
  | _, _ => false
  end.

Record PurchaseData :=
  { date : string; amount : QArith_base.Q; months : Z; bank : string;
    description : string; user : string }.

Record Pending := { data : PurchaseData; createdAt : Z; stage : Stage }.

Inductive Cell := CellText (s : string) | CellNumber (q : QArith_base.Q).

(** The row A:K handed to the spreadsheet. *)
Definition sheetRow (purchase : PurchaseData) : list Cell :=
  [ CellText (description purchase);
    CellText (user purchase);
    CellText (date purchase);
    CellText "ACTIVA";
    CellNumber (amount purchase);
    CellText "";
    CellNumber (QArith_base.inject_Z (months purchase));
    CellText (bank purchase);
    CellText "";
    CellText "";
    CellText "" ].

(** The in-memory map of pending purchases and the rows appended so far. *)
Record World :=
  { pendingPurchases : gmap string Pending; sheet : list (list Cell) }.

Definition setPending (key : string) (p : Pending) (w : World) : World :=
  {| pendingPurchases := <[key := p]> (pendingPurchases w); sheet := sheet w |}.

Definition deletePending (key : string) (w : World) : World :=
  {| pendingPurchases := delete key (pendingPurchases w); sheet := sheet w |}.

(** What a handler reads from its environment: [Date.now()], the two
    [new Date()] of confirm_purchase (for the chosen card and for the
    ranking), whether the Sheets client was initialised and whether the
    append request succeeds. *)
Record Env :=
  { dateNow : Z; todayChosen : Z; todayRanking : Z;
    sheetsReady : bool; appendOk : bool }.

(** savePurchaseToSheets: [None] when it throws. *)
Definition savePurchaseToSheets (e : Env) (purchase : PurchaseData) (w : World)
  : option World :=
  if negb (sheetsReady e) then None
  else if appendOk e
       then Some {| pendingPurchases := pendingPurchases w;
                    sheet := sheet w ++ [sheetRow purchase] |}
       else None.

(** Texts shown to the user. *)
Inductive Text :=
| TextNoPending      (* No hay una compra pendiente. *)
| TextExpired        (* Esta confirmacion expiro. *)
| TextSaved          (* Compra guardada exitosamente. *)
| TextSaveError      (* Error al guardar la compra. *)
| TextCancelled      (* Compra cancelada. *)
| TextRecommendation (chosenBank : string) (chosen : PaymentWindow)
                     (top3 : list RankedCard).

(** Calls made by a handler, in order. *)
Inductive Call :=
| answerCbQuery (text : option Text)
| editMessageText (text : Text)
| consoleError.

(** The /compra handler stores the purchase (overwriting an older one). *)
Definition registerPending (now : Z) (key : string) (purchaseData : PurchaseData)
    (w : World) : World :=
  setPending key {| data := purchaseData; createdAt := now; stage := PREVIEW |} w.

(** The guarded tail [await savePurchaseToSheets(purchase);
    pendingPurchases.delete(key); ...] with the catch clause of the
    handler. *)
Definition saveAndDelete (e : Env) (key : string) (purchase : PurchaseData)
    (w : World) : World * list Call :=
  match savePurchaseToSheets e purchase w with
  | Some w' =>
      (deletePending key w', [editMessageText TextSaved; answerCbQuery None])
  | None =>
      (w, [consoleError; editMessageText TextSaveError; answerCbQuery None])
  end.

Definition shouldWarn (bestAlt : option RankedCard) (chosen : PaymentWindow)
    (pending : Pending) : bool :=
  match bestAlt with
  | None => false
  | Some best =>
      (daysToPay chosen + IMPROVEMENT_THRESHOLD_DAYS <=? rankedDays best)
      && negb (Stage_eqb (stage pending) WARNED)
  end.

Definition confirm_purchase (e : Env) (key : string) (w : World)
  : World * list Call :=
  match pendingPurchases w !! key with
  | None => (w, [answerCbQuery (Some TextNoPending)])
  | Some pending =>
      if PENDING_TTL_MS <? dateNow e - createdAt pending then
        (deletePending key w, [editMessageText TextExpired; answerCbQuery None])
      else
        let purchase := data pending in
        if bool_decide (bank purchase ∈ SKIP_CUT_VALIDATION) then
          saveAndDelete e key purchase w
        else
          match getPaymentWindow (bank purchase) (todayChosen e) with
          | None => saveAndDelete e key purchase w
          | Some chosen =>
              let ranking :=
                rankCardsByDaysToPay (todayRanking e) [bank purchase] in
              let bestAlt := head ranking in
              if shouldWarn bestAlt chosen pending then
                (setPending key
                   {| data := data pending; createdAt := createdAt pending;
                      stage := WARNED |} w,
                 [editMessageText
                    (TextRecommendation (bank purchase) chosen (firstn 3 ranking));
                  answerCbQuery None])
              else saveAndDelete e key purchase w
          end
  end.

Definition confirm_purchase_ok (e : Env) (key : string) (w : World)
  : World * list Call :=
  match pendingPurchases w !! key with
  | None => (w, [answerCbQuery (Some TextNoPending)])
  | Some pending =>
      if PENDING_TTL_MS <? dateNow e - createdAt pending then
        (deletePending key w, [editMessageText TextExpired; answerCbQuery None])
      else saveAndDelete e key (data pending) w
  end.

Definition cancel_purchase (key : string) (w : World) : World * list Call :=
  (deletePending key w, [editMessageText TextCancelled; answerCbQuery None]).

(** The periodic sweep (every 30 seconds). *)
Definition sweepExpired (now : Z) (w : World) : World :=
  {| pendingPurchases :=
       filter (fun kv => ¬ (PENDING_TTL_MS < now - createdAt (snd kv)))
              (pendingPurchases w);
     sheet := sheet w |}.

(** The three callback actions a user can send. *)
Inductive Action := Confirm | ConfirmAnyway | CancelAction.

Definition dispatch (a : Action) (e : Env) (key : string) (w : World)
  : World * list Call :=
  match a with
  | Confirm => confirm_purchase e key w
  | ConfirmAnyway => confirm_purchase_ok e key w
  | CancelAction => cancel_purchase key w
  end.

(** The world after the purchase of the entry at [key] was committed: the
    row is appended and the entry is gone. *)
Definition committed (key : string) (purchase : PurchaseData) (w : World) : World :=
  {| pendingPurchases := delete key (pendingPurchases w);
     sheet := sheet w ++ [sheetRow purchase] |}.

(** ** Sample data for the examples *)

Definition emptyWorld : World := {| pendingPurchases := ∅; sheet := [] |}.

Definition sampleKey : string := "100:7".

Definition samplePurchase (b : string) : PurchaseData :=
  {| date := "10/01/2026"; amount := QArith_base.Qmake 9000 1; months := 12;
     bank := b; description := "Pantalla Samsung 85"; user := "Ana" |}.

(** A purchase with card [b] registered at [Date.now() = 1000]. *)
Definition sampleWorld (b : string) : World :=
  registerPending 1000 sampleKey (samplePurchase b) emptyWorld.

(** An environment at noon of 10 January 2026. *)
Definition sampleEnv (now : Z) (ok : bool) : Env :=
  {| dateNow := now;
     todayChosen := ymd 2026 1 10 + 43200000;
     todayRanking := ymd 2026 1 10 + 43200000;
     sheetsReady := true; appendOk := ok |}.

(** The world after a first confirm that showed the recommendation. *)
Definition warnedWorld : World :=
  fst (confirm_purchase (sampleEnv 2000 true) sampleKey (sampleWorld "MERCADOPAGO")).

(** The entry of [warnedWorld], the window of its card and the ranking of
    the alternatives on 10 January 2026. *)
Definition warnedPending : Pending :=
  {| data := samplePurchase "MERCADOPAGO"; createdAt := 1000; stage := WARNED |}.

Definition sampleChosen : PaymentWindow :=
  paymentWindow {| cutDay := 13; dueDay := 23; dueOffset := 0 |} (ymd 2026 1 10).

Definition sampleRanking : list RankedCard :=
  rankCardsByDaysToPay (ymd 2026 1 10) ["MERCADOPAGO"%string].

Definition jan31 : Z := ymd 2026 1 31.

(** ** Further parts of the bot *)

(** [String(n)] for an integer [n]: its decimal digits, with a minus sign
    for a negative number. *)
Definition StringOfInteger (n : Z) : string :=
  NilZero.string_of_int (Z.to_int n).

(** [s.padStart(targetLength, fill)] with a one-character fill string. *)
Definition padStart (targetLength : nat) (fill : ascii) (s : string) : string :=
  (string_of_list_ascii (repeat fill (targetLength - String.length s)) ++ s)%string.

(** formatDateDMY (and [fmt] of the first version of the bot): the text
    DD/MM/YYYY of a date. *)
Definition formatDateDMY (date : Z) : string :=
  let d := padStart 2 "0" (StringOfInteger (getDate date)) in
  let m := padStart 2 "0" (StringOfInteger (getMonth date + 1)) in
  let y := StringOfInteger (getFullYear date) in
  (d ++ "/" ++ m ++ "/" ++ y)%string.

(** The /dias command: either the notice that no card is configured, or
    one entry per ranked card. *)
Inductive DiasReply :=
| DiasNoCards
| DiasRanking (lines : list RankedCard).

Definition dias (today : Z) : DiasReply :=
  let ranking := rankCardsByDaysToPay today [] in
  if (length ranking =? 0)%nat then DiasNoCards else DiasRanking ranking.

(** The six ways in which a run of a callback handler can end, each with
    the world it leaves and the calls it makes: nothing pending, cancelled,
    expired, committed, save error, warned. *)
Inductive HandlerOutcome (e : Env) (key : string) (w : World)
  : Action -> World * list Call -> Prop :=
| OutcomeNothingPending (a : Action) :
    pendingPurchases w !! key = None ->
    a <> CancelAction ->
    HandlerOutcome e key w a (w, [answerCbQuery (Some TextNoPending)])
| OutcomeCancelled :
    HandlerOutcome e key w CancelAction
      (deletePending key w, [editMessageText TextCancelled; answerCbQuery None])
| OutcomeExpired (a : Action) (pending : Pending) :
    pendingPurchases w !! key = Some pending ->
    a <> CancelAction ->
    PENDING_TTL_MS < dateNow e - createdAt pending ->
    HandlerOutcome e key w a
      (deletePending key w, [editMessageText TextExpired; answerCbQuery None])
| OutcomeCommitted (a : Action) (pending : Pending) :
    pendingPurchases w !! key = Some pending ->
    a <> CancelAction ->
    dateNow e - createdAt pending <= PENDING_TTL_MS ->
    sheetsReady e = true -> appendOk e = true ->
    HandlerOutcome e key w a
      (committed key (data pending) w,
       [editMessageText TextSaved; answerCbQuery None])
| OutcomeSaveError (a : Action) (pending : Pending) :
    pendingPurchases w !! key = Some pending ->
    a <> CancelAction ->
    dateNow e - createdAt pending <= PENDING_TTL_MS ->
    savePurchaseToSheets e (data pending) w = None ->
    HandlerOutcome e key w a
      (w, [consoleError; editMessageText TextSaveError; answerCbQuery None])
| OutcomeWarned (pending : Pending) (chosen : PaymentWindow) :
    pendingPurchases w !! key = Some pending ->
    dateNow e - createdAt pending <= PENDING_TTL_MS ->
    stage pending = PREVIEW ->
    bank (data pending) ∉ SKIP_CUT_VALIDATION ->
    getPaymentWindow (bank (data pending)) (todayChosen e) = Some chosen ->
    shouldWarn
      (head (rankCardsByDaysToPay (todayRanking e) [bank (data pending)]))
      chosen pending = true ->
    HandlerOutcome e key w Confirm
      (setPending key
         {| data := data pending; createdAt := createdAt pending;
            stage := WARNED |} w,
       [editMessageText
          (TextRecommendation
             (bank (data pending)) chosen
             (firstn 3 (rankCardsByDaysToPay (todayRanking e)
                                             [bank (data pending)])));
        answerCbQuery None]).

(** ** Parsing the /compra command *)

(** A JavaScript string as its sequence of UTF-16 code units; the code
    units of a text written in ASCII. *)
Definition codeUnitsOf (s : string) : list N :=
  map N_of_ascii (list_ascii_of_string s).

(** White space and line terminators, as String.prototype.trim and the
    class \s of regular expressions see them. *)
Definition isWhiteSpace (c : N) : bool :=
  ((c =? 0x9) || (c =? 0xA) || (c =? 0xB) || (c =? 0xC) || (c =? 0xD)
   || (c =? 0x20) || (c =? 0xA0) || (c =? 0x1680)
   || ((0x2000 <=? c) && (c <=? 0x200A))
   || (c =? 0x2028) || (c =? 0x2029) || (c =? 0x202F) || (c =? 0x205F)
   || (c =? 0x3000) || (c =? 0xFEFF))%N.

(** The class \w (the flag i adds nothing to it outside Unicode mode). *)
Definition isWordChar (c : N) : bool :=
  (((0x30 <=? c) && (c <=? 0x39)) || ((0x41 <=? c) && (c <=? 0x5A))
   || ((0x61 <=? c) && (c <=? 0x7A)) || (c =? 0x5F))%N.

Fixpoint dropWhile (p : N -> bool) (l : list N) : list N :=
  match l with
  | [] => []
  | c :: rest => if p c then dropWhile p rest else l
  end.

Definition trim (l : list N) : list N :=
  rev (dropWhile isWhiteSpace (rev (dropWhile isWhiteSpace l))).

(** One character of the pattern /compra under the flag i: a lower-case
    letter of the pattern matches itself and its upper-case form. *)
Definition matchesIgnoreCase (p c : N) : bool :=
  ((c =? p) || ((0x61 <=? p) && (p <=? 0x7A) && (c =? p - 32)))%N.

Fixpoint stripPrefixIgnoreCase (pattern l : list N) : option (list N) :=
  match pattern, l with
  | [], _ => Some l
  | p :: pattern', c :: rest =>
      if matchesIgnoreCase p c then stripPrefixIgnoreCase pattern' rest else None
  | _ :: _, [] => None
  end.

(** [s.replace(/^\/compra(@\w+)?\s*/i, "")]: the command, an optional
    @name and the white space after them are removed from the start; a
    string that does not start with the command is left as it is. *)
Definition stripCommand (l : list N) : list N :=
  match stripPrefixIgnoreCase (codeUnitsOf "/compra") l with
  | None => l
  | Some rest =>
      let afterName :=
        match rest with
        | 64%N :: name =>
            let afterWord := dropWhile isWordChar name in
            if (length afterWord <? length name)%nat then afterWord else rest
        | _ => rest
        end in
      dropWhile isWhiteSpace afterName
  end.

(** [s.split(/\s+/)]: the pieces between the runs of white space, empty
    pieces at the ends included.  [current] is the piece being read, in
    reverse; [inRun] tells that the previous character was white space. *)
Fixpoint splitWhiteSpace (l current : list N) (inRun : bool) : list (list N) :=
  match l with
  | [] => [rev current]
  | c :: rest =>
      if isWhiteSpace c
      then if inRun then splitWhiteSpace rest [] true
           else rev current :: splitWhiteSpace rest [] true
      else splitWhiteSpace rest (c :: current) false
  end.

Definition nonEmpty (w : list N) : bool :=
  match w with [] => false | _ :: _ => true end.

(** [parts.join(" ")]. *)
Fixpoint joinWithSpace (parts : list (list N)) : list N :=
  match parts with
  | [] => []
  | [w] => w
  | w :: rest => w ++ 32%N :: joinWithSpace rest
  end.

(** A JavaScript number: NaN, an infinity, or a finite value. *)
Inductive JSNumber :=
| NaN
| Infinity (negative : bool)
| Finite (q : QArith_base.Q).

Definition isFinite (x : JSNumber) : bool :=
  match x with Finite _ => true | _ => false end.

Definition isInteger (x : JSNumber) : bool :=
  match x with
  | Finite q => QArith_base.Qnum q mod Z.pos (QArith_base.Qden q) =? 0
  | _ => false
  end.

(** [x <= k] for an integer constant [k]; false for NaN. *)
Definition leInteger (x : JSNumber) (k : Z) : bool :=
  match x with
  | NaN => false
  | Infinity negative => negative
  | Finite q => QArith_base.Qle_bool q (QArith_base.inject_Z k)
  end.

(** [x > k] for an integer constant [k]; false for NaN. *)
Definition gtInteger (x : JSNumber) (k : Z) : bool :=
  match x with
  | NaN => false
  | Infinity negative => negb negative
  | Finite q => negb (QArith_base.Qle_bool q (QArith_base.inject_Z k))
  end.

Record ParsedCompra :=
  { parsedAmount : JSNumber; parsedMonths : JSNumber;
    parsedBank : list N; parsedDescription : list N }.

(** parseCompraCommand.  The conversion [Number(text)] of a string to a
    number is not modelled: it is a parameter. *)
Definition parseCompraCommand (Number : list N -> JSNumber) (text : list N)
  : option ParsedCompra :=
  let normalized := trim text in
  let withoutCommand := stripCommand normalized in
  let parts := List.filter nonEmpty (splitWhiteSpace withoutCommand [] false) in
  if (length parts <? 4)%nat then None
  else
    let amountRaw :=
      List.filter (fun c => negb ((c =? 0x24) || (c =? 0x2C))%N) (nth 0 parts []) in
    let monthsRaw :=
      List.filter (fun c => negb (c =? 0x2C)%N) (nth 1 parts []) in
    let amount := Number amountRaw in
    let months := Number monthsRaw in
    let bank := nth 2 parts [] in
    let description := joinWithSpace (skipn 3 parts) in
    if negb (isFinite amount) || leInteger amount 0 then None
    else if negb (isInteger months) || leInteger months 0 || gtInteger months 60
    then None
    else if negb (nonEmpty bank) || negb (nonEmpty description) then None
    else Some {| parsedAmount := amount; parsedMonths := months;
                 parsedBank := bank; parsedDescription := description |}.

(** A word: a non-empty string without white space. *)
Definition isWord (w : list N) : Prop :=
  w <> [] /\ Forall (fun c => isWhiteSpace c = false) w.

(** A reading of strings of decimal digits: on strings of up to fifteen
    digits it agrees with Number (the empty string reads as 0).  It answers
    NaN for every string with another character and only serves to run the
    examples. *)
Definition digitsToNumber (s : list N) : JSNumber :=
  if forallb (fun c => (0x30 <=? c) && (c <=? 0x39))%N s
  then Finite (QArith_base.inject_Z
                 (fold_left (fun acc c => 10 * acc + Z.of_N (c - 0x30)) s 0))
  else NaN.

Definition sampleCommand : list N :=
  codeUnitsOf "  /Compra@my_bot   $9,000 12 rappicard Pantalla  Samsung 85 ".




(** Two times of day used in the examples. *)
Definition mar31 : Z := ymd 2026 3 31 + 3600000.

Definition jan10 : Z := ymd 2026 1 10 + 43200000.

(** Linear arithmetic with floor division and modulo by constants. *)
Ltac divlia := Z.to_euclidean_division_equations; lia.

(** Case analysis on a month number known to lie in 0..11. *)
Ltac month_cases m :=
  let H := fresh in
  assert (H : m = 0 \/ m = 1 \/ m = 2 \/ m = 3 \/ m = 4 \/ m = 5 \/ m = 6 \/
              m = 7 \/ m = 8 \/ m = 9 \/ m = 10 \/ m = 11) by lia;
  repeat (destruct H as [H | H]); subst m.

(** Closes a goal [~ In call trace] when no call of the trace can be
    [call]. *)
Ltac not_in_trace :=
  let H := fresh in
  intros H; cbn in H;
  repeat (destruct H as [H | H]; [discriminate H |]); exact H.

(** * Properties *)

(** ** Calendar lemmas *)

Example ymd_epoch : ymd 1970 1 1 = 0.
Proof. reflexivity. Qed.

Example ymd_2024_02_29 :
  (Day (ymd 2024 2 29), getFullYear (ymd 2024 2 29), getMonth (ymd 2024 2 29),
   getDate (ymd 2024 2 29)) = (19782, 2024, 1, 29).
Proof. vm_compute. reflexivity. Qed.

Example feb_31_overflows : ymd 2026 2 31 = ymd 2026 3 3.
Proof. vm_compute. reflexivity. Qed.

Lemma DaysInYear_cases y : DaysInYear y = 365 \/ DaysInYear y = 366.
Proof. unfold DaysInYear. repeat (destruct (_ =? _); simpl; auto). Qed.

Lemma DayFromYear_succ y : DayFromYear (y + 1) = DayFromYear y + DaysInYear y.
Proof.
  unfold DayFromYear, DaysInYear.
  repeat match goal with |- context [?a =? ?b] => destruct (Z.eqb_spec a b); simpl end;
  divlia.
Qed.

Lemma YearFromDay_spec d :
  DayFromYear (YearFromDay d) <= d < DayFromYear (YearFromDay d + 1).
Proof.
  unfold YearFromDay.
  set (y0 := 1970 + 400 * d / 146097).
  assert (H1 : DayFromYear (y0 - 1) <= d) by (unfold DayFromYear, y0; divlia).
  assert (H2 : d < DayFromYear (y0 + 2)) by (unfold DayFromYear, y0; divlia).
  destruct (Z.leb_spec (DayFromYear (y0 + 1)) d).
  - replace (y0 + 1 + 1) with (y0 + 2) by lia. lia.
  - destruct (Z.leb_spec (DayFromYear y0) d).
    + lia.
    + replace (y0 - 1 + 1) with y0 by lia. lia.
Qed.

Lemma LeapOfYear_cases y : LeapOfYear y = 0 \/ LeapOfYear y = 1.
Proof. unfold LeapOfYear. destruct (DaysInYear_cases y); lia. Qed.

Lemma month_split k :
  exists y m, k = 12 * y + m /\ 0 <= m < 12 /\ k / 12 = y /\ k mod 12 = m.
Proof. exists (k / 12), (k mod 12). divlia. Qed.

Lemma firstDay_eq y m :
  0 <= m < 12 -> firstDay (12 * y + m) = DayFromYear y + monthOffset m (LeapOfYear y).
Proof.
  intros Hm. unfold firstDay, MakeDay.
  replace (0 + (12 * y + m) / 12) with y by divlia.
  replace ((12 * y + m) mod 12) with m by divlia. lia.
Qed.

Lemma MakeDay_firstDay y m d : MakeDay y m d = firstDay (12 * y + m) + d - 1.
Proof.
  unfold firstDay, MakeDay.
  replace (0 + (12 * y + m) / 12) with (y + m / 12) by divlia.
  replace ((12 * y + m) mod 12) with (m mod 12) by divlia. lia.
Qed.

Lemma firstDay_step k : firstDay k + 28 <= firstDay (k + 1) <= firstDay k + 31.
Proof.
  destruct (month_split k) as (y & m & -> & Hm & _ & _).
  rewrite (firstDay_eq y m Hm).
  destruct (Z.eq_dec m 11) as [-> | Hne].
  - replace (12 * y + 11 + 1) with (12 * (y + 1) + 0) by lia.
    rewrite firstDay_eq by lia. rewrite DayFromYear_succ.
    unfold LeapOfYear. simpl. lia.
  - replace (12 * y + m + 1) with (12 * y + (m + 1)) by lia.
    rewrite firstDay_eq by lia.
    destruct (LeapOfYear_cases y) as [-> | ->]; month_cases m; simpl; lia.
Qed.

Lemma firstDay_lt k k' : k < k' -> firstDay k < firstDay k'.
Proof.
  intros H. replace k' with (k + 1 + (k' - k - 1)) by lia.
  assert (Hn : 0 <= k' - k - 1) by lia. revert Hn.
  generalize (k' - k - 1). apply natlike_ind.
  - rewrite Z.add_0_r. pose proof (firstDay_step k). lia.
  - intros x Hx IH. replace (k + 1 + Z.succ x) with (k + 1 + x + 1) by lia.
    pose proof (firstDay_step (k + 1 + x)). lia.
Qed.

Lemma firstDay_le k k' : k <= k' -> firstDay k <= firstDay k'.
Proof.
  intros H. destruct (Z.eq_dec k k') as [-> | Hne]; [lia |].
  pose proof (firstDay_lt k k'). lia.
Qed.

Lemma MonthFromTime_range t : 0 <= MonthFromTime t < 12.
Proof.
  unfold MonthFromTime, monthOfYearDay.
  repeat match goal with |- context [?a <? ?b] => destruct (Z.ltb_spec a b) end; lia.
Qed.

Lemma DayWithinYear_range t : 0 <= DayWithinYear t < DaysInYear (YearFromTime t).
Proof.
  unfold DayWithinYear, YearFromTime.
  pose proof (YearFromDay_spec (Day t)) as H.
  rewrite DayFromYear_succ in H. lia.
Qed.

Lemma monthIndex_spec t :
  firstDay (monthIndex t) <= Day t < firstDay (monthIndex t + 1) /\
  DateFromTime t = Day t - firstDay (monthIndex t) + 1.
Proof.
  unfold monthIndex, DateFromTime.
  pose proof (MonthFromTime_range t) as Hm.
  pose proof (DayWithinYear_range t) as Hd.
  pose proof (firstDay_eq (YearFromTime t) (MonthFromTime t) Hm) as E1.
  assert (E2 : firstDay (12 * YearFromTime t + MonthFromTime t + 1)
               = DayFromYear (YearFromTime t)
                 + monthOffset (MonthFromTime t + 1) (LeapOfYear (YearFromTime t))).
  { destruct (Z.eq_dec (MonthFromTime t) 11) as [E | Hne].
    - rewrite E. replace (12 * YearFromTime t + 11 + 1) with (12 * (YearFromTime t + 1) + 0) by lia.
      rewrite firstDay_eq by lia. rewrite DayFromYear_succ. unfold LeapOfYear. simpl. lia.
    - replace (12 * YearFromTime t + MonthFromTime t + 1)
        with (12 * YearFromTime t + (MonthFromTime t + 1)) by lia.
      apply firstDay_eq. lia. }
  rewrite E1, E2. clear E1 E2.
  assert (Hdw : Day t = DayFromYear (YearFromTime t) + DayWithinYear t)
    by (unfold DayWithinYear; lia).
  rewrite Hdw. clear Hdw.
  unfold MonthFromTime, InLeapYear, LeapOfYear in *.
  remember (DayWithinYear t) as dw eqn:Edw. clear Edw.
  remember (YearFromTime t) as y eqn:Ey. clear Ey.
  destruct (DaysInYear_cases y) as [E | E]; rewrite E in *; simpl;
  unfold monthOfYearDay;
  repeat match goal with |- context [?a <? ?b] => destruct (Z.ltb_spec a b) end;
  simpl; lia.
Qed.

Lemma monthIndex_ge k t : firstDay k <= Day t -> k <= monthIndex t.
Proof.
  intros H. destruct (Z_lt_le_dec (monthIndex t) k) as [Hlt | ?]; [| assumption].
  pose proof (monthIndex_spec t) as [[_ Hu] _].
  pose proof (firstDay_le (monthIndex t + 1) k). lia.
Qed.

Lemma monthIndex_lt k t : Day t < firstDay k -> monthIndex t < k.
Proof.
  intros H. destruct (Z_lt_le_dec (monthIndex t) k) as [? | Hge]; [assumption |].
  pose proof (monthIndex_spec t) as [[Hl _] _].
  pose proof (firstDay_le k (monthIndex t)). lia.
Qed.

Lemma monthIndex_unique k t :
  firstDay k <= Day t < firstDay (k + 1) -> monthIndex t = k.
Proof.
  intros [Hl Hu]. pose proof (monthIndex_ge _ _ Hl).
  pose proof (monthIndex_lt _ _ Hu). lia.
Qed.

Lemma getDate_pos t : 1 <= getDate t.
Proof.
  unfold getDate. pose proof (monthIndex_spec t) as [[Hl _] ->]. lia.
Qed.

Lemma Day_MakeDate d tw : 0 <= tw < msPerDay -> Day (MakeDate d tw) = d.
Proof. unfold Day, MakeDate, msPerDay. intros H. divlia. Qed.

Lemma TimeWithinDay_range t : 0 <= TimeWithinDay t < msPerDay.
Proof. unfold TimeWithinDay, msPerDay. divlia. Qed.

Lemma MakeDate_lt d d' : MakeDate d 0 < MakeDate d' 0 <-> d < d'.
Proof. unfold MakeDate, msPerDay. lia. Qed.

Lemma MakeDate_le d d' : MakeDate d 0 <= MakeDate d' 0 <-> d <= d'.
Proof. unfold MakeDate, msPerDay. lia. Qed.

Lemma setHours0_MakeDate d : setHours0 (MakeDate d 0) = MakeDate d 0.
Proof. unfold setHours0. rewrite Day_MakeDate; [reflexivity | unfold msPerDay; lia]. Qed.

Lemma normalizeToDay_le t : normalizeToDay t <= t < normalizeToDay t + msPerDay.
Proof. unfold normalizeToDay, setHours0, MakeDate, Day, msPerDay. divlia. Qed.

Lemma twoDigitYear_ge y : y <= twoDigitYear y.
Proof.
  unfold twoDigitYear.
  destruct (Z.leb_spec 0 y); destruct (Z.leb_spec y 99); simpl; lia.
Qed.

Lemma twoDigitYear_id y : ~ (0 <= y <= 99) -> twoDigitYear y = y.
Proof.
  unfold twoDigitYear.
  destruct (Z.leb_spec 0 y); destruct (Z.leb_spec y 99); simpl; lia.
Qed.

(** The day number of the dates built by the two helpers of the bot. *)
Lemma buildDateYMDay_eq base day :
  buildDateYMDay base day =
  MakeDate (firstDay (12 * twoDigitYear (getFullYear base) + getMonth base)
            + day - 1) 0.
Proof.
  unfold buildDateYMDay, newDate. rewrite setHours0_MakeDate.
  now rewrite MakeDay_firstDay.
Qed.

Lemma addMonths_eq t k :
  addMonths t k = MakeDate (firstDay (monthIndex t + k) + getDate t - 1) 0.
Proof.
  unfold addMonths, setMonth, setHours0.
  rewrite Day_MakeDate by apply TimeWithinDay_range.
  rewrite MakeDay_firstDay. unfold monthIndex, getMonth, getDate.
  do 2 f_equal. f_equal. f_equal. lia.
Qed.

Lemma Day_buildDateYMDay base day :
  Day (buildDateYMDay base day)
  = firstDay (12 * twoDigitYear (getFullYear base) + getMonth base) + day - 1.
Proof. rewrite buildDateYMDay_eq. apply Day_MakeDate. unfold msPerDay. lia. Qed.

Lemma Day_buildDateYMDay_ge base day :
  1 <= day -> firstDay (monthIndex base) <= Day (buildDateYMDay base day).
Proof.
  intros Hd. rewrite buildDateYMDay_eq.
  rewrite Day_MakeDate by (unfold msPerDay; lia).
  pose proof (twoDigitYear_ge (getFullYear base)).
  pose proof (firstDay_le (monthIndex base)
                (12 * twoDigitYear (getFullYear base) + getMonth base)) as Hle.
  unfold monthIndex, getFullYear, getMonth in *. lia.
Qed.

Lemma monthIndex_addMonths_ge t k : monthIndex t + k <= monthIndex (addMonths t k).
Proof.
  apply monthIndex_ge. rewrite addMonths_eq.
  rewrite Day_MakeDate by (unfold msPerDay; lia).
  pose proof (getDate_pos t). lia.
Qed.

Lemma buildDateYMDay_normal base day :
  buildDateYMDay base day = MakeDate (Day (buildDateYMDay base day)) 0.
Proof.
  rewrite buildDateYMDay_eq at 1. rewrite buildDateYMDay_eq.
  now rewrite Day_MakeDate by (unfold msPerDay; lia).
Qed.

Lemma getNextCutDate_normal today cutDay :
  getNextCutDate today cutDay = MakeDate (Day (getNextCutDate today cutDay)) 0.
Proof.
  unfold getNextCutDate.
  destruct (today <=? buildDateYMDay today cutDay); apply buildDateYMDay_normal.
Qed.

(** The second attempt of getPaymentWindow always lands after the cut. *)
Lemma rolled_due_after_cut cut off day :
  0 <= off -> 1 <= day ->
  cut = MakeDate (Day cut) 0 ->
  cut < buildDateYMDay (addMonths (addMonths cut off) 1) day.
Proof.
  intros Hoff Hday Hn.
  set (base := addMonths cut off).
  pose proof (monthIndex_addMonths_ge cut off) as H1. fold base in H1.
  pose proof (monthIndex_addMonths_ge base 1) as H2.
  pose proof (Day_buildDateYMDay_ge (addMonths base 1) day Hday) as H3.
  pose proof (monthIndex_spec cut) as [[_ Hu] _].
  pose proof (firstDay_le (monthIndex cut + 1) (monthIndex (addMonths base 1))) as H4.
  rewrite Hn, (buildDateYMDay_normal (addMonths base 1) day).
  apply MakeDate_lt. lia.
Qed.

Lemma paymentWindow_cut_lt_due c today :
  1 <= dueDay c -> 0 <= dueOffset c ->
  cutDate (paymentWindow c today) < dueDate (paymentWindow c today).
Proof.
  intros Hd Ho. unfold paymentWindow. cbn [cutDate dueDate].
  set (t := normalizeToDay today).
  set (cut := getNextCutDate t (cutDay c)).
  destruct (Z.leb_spec (buildDateYMDay (addMonths cut (dueOffset c)) (dueDay c)) cut)
    as [Hle | Hgt].
  - apply rolled_due_after_cut; try assumption. apply getNextCutDate_normal.
  - assumption.
Qed.

Lemma paymentWindow_days_nonneg c today : 0 <= daysToPay (paymentWindow c today).
Proof. unfold paymentWindow. cbn [daysToPay]. apply Z.le_max_l. Qed.

Lemma firstDay_inj k k' : firstDay k = firstDay k' -> k = k'.
Proof.
  intros H. destruct (Z.lt_trichotomy k k') as [Hlt | [? | Hgt]]; [| assumption |].
  - pose proof (firstDay_lt _ _ Hlt). lia.
  - pose proof (firstDay_lt _ _ Hgt). lia.
Qed.


(** The facts above in terms of the methods of Date. *)
Lemma getDate_spec t : getDate t = Day t - firstDay (monthIndex t) + 1.
Proof. apply monthIndex_spec. Qed.

Lemma monthIndex_getters t : monthIndex t = 12 * getFullYear t + getMonth t.
Proof. reflexivity. Qed.

Lemma getMonth_range t : 0 <= getMonth t < 12.
Proof. apply MonthFromTime_range. Qed.

Lemma getFullYear_of_index y m t :
  0 <= m < 12 -> monthIndex t = 12 * y + m -> getFullYear t = y /\ getMonth t = m.
Proof.
  intros Hm Hk. rewrite monthIndex_getters in Hk.
  pose proof (getMonth_range t). lia.
Qed.

(** A date built on a day that exists in its month keeps year, month and
    day as written (after the two-digit-year rule). *)
Lemma getFullYear_buildDateYMDay base day :
  getDate (buildDateYMDay base day) = day ->
  getFullYear (buildDateYMDay base day) = twoDigitYear (getFullYear base)
  /\ getMonth (buildDateYMDay base day) = getMonth base.
Proof.
  intros Hg.
  pose proof (getDate_spec (buildDateYMDay base day)) as Hd.
  pose proof (Day_buildDateYMDay base day) as E.
  apply getFullYear_of_index; [apply getMonth_range |].
  apply firstDay_inj. lia.
Qed.

Lemma addMonths_0_normal t : t = MakeDate (Day t) 0 -> addMonths t 0 = t.
Proof.
  intros Hn. rewrite addMonths_eq, Z.add_0_r.
  pose proof (getDate_spec t) as Hd.
  etransitivity; [| symmetry; exact Hn]. f_equal. lia.
Qed.




Lemma buildDateYMDay_getDate base day :
  1 <= day <= 28 -> getDate (buildDateYMDay base day) = day.
Proof.
  intros Hd.
  set (k := 12 * twoDigitYear (getFullYear base) + getMonth base).
  assert (E : Day (buildDateYMDay base day) = firstDay k + day - 1)
    by apply Day_buildDateYMDay.
  pose proof (firstDay_step k).
  assert (Hk : monthIndex (buildDateYMDay base day) = k)
    by (apply monthIndex_unique; lia).
  rewrite getDate_spec, Hk. lia.
Qed.


Lemma CARD_CYCLE_valid : Forall (fun kc => validCycle (snd kc)) CARD_CYCLE.
Proof. unfold CARD_CYCLE, validCycle. repeat constructor; simpl; lia. Qed.


(** Further facts about the helpers, used for the payment window. *)
Lemma getDate_le_31 t : getDate t <= 31.
Proof.
  pose proof (getDate_spec t) as Hd.
  pose proof (monthIndex_spec t) as [[_ Hu] _].
  pose proof (firstDay_step (monthIndex t)). lia.
Qed.

Lemma Day_addMonths t k :
  Day (addMonths t k) = firstDay (monthIndex t + k) + getDate t - 1.
Proof. rewrite addMonths_eq. apply Day_MakeDate. unfold msPerDay. lia. Qed.

Lemma addMonths_exact t k :
  getDate t <= 28 ->
  monthIndex (addMonths t k) = monthIndex t + k /\
  getDate (addMonths t k) = getDate t.
Proof.
  intros H28.
  pose proof (Day_addMonths t k) as HD.
  pose proof (getDate_pos t) as Hpos.
  pose proof (firstDay_step (monthIndex t + k)) as Hstep.
  assert (Hk : monthIndex (addMonths t k) = monthIndex t + k)
    by (apply monthIndex_unique; lia).
  split; [exact Hk |]. rewrite getDate_spec, Hk. lia.
Qed.

Lemma Day_normalizeToDay t : Day (normalizeToDay t) = Day t.
Proof. unfold normalizeToDay, setHours0. apply Day_MakeDate. unfold msPerDay. lia. Qed.

Lemma normalizeToDay_normal t :
  normalizeToDay t = MakeDate (Day (normalizeToDay t)) 0.
Proof. rewrite Day_normalizeToDay. reflexivity. Qed.

Lemma getters_Day t t' :
  Day t = Day t' ->
  getFullYear t = getFullYear t' /\ getMonth t = getMonth t' /\ getDate t = getDate t'.
Proof.
  intros H.
  unfold getFullYear, getMonth, getDate, DateFromTime, MonthFromTime, InLeapYear,
    DayWithinYear, YearFromTime.
  rewrite H. repeat split.
Qed.

Lemma getNextCutDate_not_past t cutDay :
  1 <= cutDay -> t = MakeDate (Day t) 0 -> t <= getNextCutDate t cutDay.
Proof.
  intros Hc Hn. unfold getNextCutDate.
  destruct (Z.leb_spec t (buildDateYMDay t cutDay)) as [Hle | _]; [exact Hle |].
  pose proof (Day_buildDateYMDay_ge (addMonths t 1) cutDay Hc) as H1.
  pose proof (monthIndex_addMonths_ge t 1) as H2.
  pose proof (firstDay_le (monthIndex t + 1) (monthIndex (addMonths t 1)) H2) as H3.
  pose proof (monthIndex_spec t) as [[_ Hu] _].
  apply (Z.le_stepl (MakeDate (Day t) 0)); [| symmetry; exact Hn].
  apply (Z.le_stepr _ (MakeDate (Day (buildDateYMDay (addMonths t 1) cutDay)) 0));
    [| symmetry; apply buildDateYMDay_normal].
  apply MakeDate_le. lia.
Qed.

Lemma year_of_index_ge t : 1200 <= monthIndex t -> 100 <= getFullYear t.
Proof.
  rewrite monthIndex_getters. pose proof (getMonth_range t). lia.
Qed.

Lemma paymentWindow_cutDate c today :
  cutDate (paymentWindow c today)
  = getNextCutDate (normalizeToDay today) (cutDay c).
Proof. unfold paymentWindow. cbn [cutDate]. reflexivity. Qed.

(** ** C1 *)







(** The same for the catalog of the bot. *)
Corollary getPaymentWindow_cut_before_due bank today :
  In bank (map fst CARD_CYCLE) ->
  exists w, getPaymentWindow bank today = Some w /\
            cutDate w < dueDate w /\ 0 <= daysToPay w.
Proof.
  intros Hin. unfold getPaymentWindow, getPaymentWindowIn.
  assert (E : exists c, lookupCycle CARD_CYCLE bank = Some c /\ validCycle c).
  { simpl in Hin. unfold validCycle.
    repeat (destruct Hin as [<- | Hin];
            [eexists; split; [reflexivity | simpl; lia] |]).
    destruct Hin. }
  destruct E as (c & -> & (_ & Hd & Ho)).
  eexists; split; [reflexivity |].
  split; [apply paymentWindow_cut_lt_due; lia | apply paymentWindow_days_nonneg].
Qed.

(** A degenerate cycle (cut on the 20th, due on the 5th of the same month):
    the due date is the 5th of the month after the cut. *)
Example degenerate_cycle_rolls :
  let w := paymentWindow {| cutDay := 20; dueDay := 5; dueOffset := 0 |}
                         (ymd 2026 1 10) in
  cutDate w = ymd 2026 1 20 /\ dueDate w = ymd 2026 2 5 /\ daysToPay w = 26.
Proof. vm_compute. repeat split. Qed.

(** ** C7 *)

Lemma newDate_eq y m d :
  ~ (0 <= y <= 99) -> newDate y m d = MakeDate (firstDay (12 * y + m) + d - 1) 0.
Proof.
  intros Hy. unfold newDate. rewrite (twoDigitYear_id y Hy).
  now rewrite MakeDay_firstDay.
Qed.

(** On or before the cut day of its own month, the cut used is the one of
    the current month (a reference date on the cut day included). *)
Lemma getNextCutDate_this_month today cutDay :
  today = MakeDate (Day today) 0 ->
  ~ (0 <= getFullYear today <= 99) ->
  getDate today <= cutDay ->
  getNextCutDate today cutDay
  = newDate (getFullYear today) (getMonth today) cutDay.
Proof.
  intros Hn Hy Hle.
  assert (E : buildDateYMDay today cutDay
              = newDate (getFullYear today) (getMonth today) cutDay).
  { rewrite buildDateYMDay_eq, newDate_eq by assumption.
    now rewrite (twoDigitYear_id _ Hy). }
  unfold getNextCutDate.
  destruct (Z.leb_spec today (buildDateYMDay today cutDay)) as [_ | Hgt];
    [exact E | exfalso].
  pose proof (Day_buildDateYMDay today cutDay) as Hd.
  rewrite (twoDigitYear_id _ Hy), <- monthIndex_getters in Hd.
  pose proof (getDate_spec today) as Hg.
  assert (Hlt : MakeDate (Day (buildDateYMDay today cutDay)) 0
                < MakeDate (Day today) 0).
  { rewrite <- Hn. now rewrite <- buildDateYMDay_normal. }
  apply (proj1 (MakeDate_lt _ _)) in Hlt. lia.
Qed.

(** After the cut day, and on a day of the month that every month has, the
    cut used is the same day of the next month. *)
Lemma getNextCutDate_next_month today cutDay :
  today = MakeDate (Day today) 0 ->
  100 <= getFullYear today ->
  cutDay < getDate today <= 28 ->
  getNextCutDate today cutDay
  = newDate (getFullYear today) (getMonth today + 1) cutDay.
Proof.
  intros Hn Hy [Hlt H28].
  pose proof (getDate_spec today) as Hg.
  pose proof (getMonth_range today) as Hm.
  unfold getNextCutDate.
  destruct (Z.leb_spec today (buildDateYMDay today cutDay)) as [Hle | _].
  - exfalso.
    pose proof (Day_buildDateYMDay today cutDay) as Hd.
    rewrite twoDigitYear_id, <- monthIndex_getters in Hd by lia.
    assert (Hle' : MakeDate (Day today) 0
                   <= MakeDate (Day (buildDateYMDay today cutDay)) 0).
    { rewrite <- Hn. now rewrite <- buildDateYMDay_normal. }
    apply (proj1 (MakeDate_le _ _)) in Hle'. lia.
  - set (next := addMonths today 1).
    assert (Hk : monthIndex next = monthIndex today + 1).
    { apply monthIndex_unique. unfold next. rewrite addMonths_eq.
      rewrite Day_MakeDate by (unfold msPerDay; lia).
      pose proof (getDate_pos today).
      pose proof (firstDay_step (monthIndex today + 1)). lia. }
    pose proof (getMonth_range next) as Hm'.
    rewrite !monthIndex_getters in Hk.
    rewrite buildDateYMDay_eq, newDate_eq by lia.
    rewrite twoDigitYear_id by lia.
    do 2 f_equal. f_equal. f_equal. lia.
Qed.

(** The scenario of the specification: cut on the 6th, due on the 26th of
    the same month, purchase on the 10th.  The cut is the 6th of the next
    month and the due date the 26th of that month. *)
Lemma scenario_cut_6_due_26_day_10 today :
  100 <= getFullYear today ->
  getDate today = 10 ->
  let w := paymentWindow {| cutDay := 6; dueDay := 26; dueOffset := 0 |} today in
  cutDate w = newDate (getFullYear today) (getMonth today + 1) 6 /\
  dueDate w = newDate (getFullYear today) (getMonth today + 1) 26.
Proof.
  intros Hy Hd. unfold paymentWindow. cbn [cutDate dueDate cutDay dueDay dueOffset].
  destruct (getters_Day (normalizeToDay today) today (Day_normalizeToDay today))
    as (Ey & Em & Ed).
  set (t := normalizeToDay today) in *.
  assert (Hcut : getNextCutDate t 6 = newDate (getFullYear t) (getMonth t + 1) 6).
  { apply getNextCutDate_next_month; [apply normalizeToDay_normal | lia | lia]. }
  rewrite Hcut, Ey, Em.
  set (y := getFullYear today) in *. set (m := getMonth today) in *.
  assert (Hn : newDate y (m + 1) 6 = MakeDate (Day (newDate y (m + 1) 6)) 0).
  { rewrite newDate_eq by lia. now rewrite Day_MakeDate by (unfold msPerDay; lia). }
  rewrite (addMonths_0_normal _ Hn).
  set (cut := newDate y (m + 1) 6) in *.
  assert (HD : Day cut = firstDay (12 * y + (m + 1)) + 6 - 1).
  { unfold cut. rewrite newDate_eq by lia. apply Day_MakeDate. unfold msPerDay. lia. }
  assert (Hk : monthIndex cut = 12 * y + (m + 1)).
  { apply monthIndex_unique. pose proof (firstDay_step (12 * y + (m + 1))). lia. }
  rewrite monthIndex_getters in Hk.
  pose proof (getMonth_range today) as Hm. fold m in Hm.
  pose proof (getMonth_range cut) as Hm'.
  assert (Hyc : 100 <= getFullYear cut) by lia.
  assert (Hdue : buildDateYMDay cut 26 = newDate y (m + 1) 26).
  { rewrite buildDateYMDay_eq, newDate_eq by lia.
    rewrite twoDigitYear_id by lia. do 2 f_equal. f_equal. f_equal. lia. }
  rewrite Hdue. split; [reflexivity |].
  destruct (Z.leb_spec (newDate y (m + 1) 26) cut) as [Hle | _]; [| reflexivity].
  exfalso. unfold cut in Hle. rewrite !newDate_eq in Hle by lia.
  apply (proj1 (MakeDate_le _ _)) in Hle. lia.
Qed.

(** C7 (the code departs from its own description).  On 31 January 2026, after the
    cut day 6 of RAPPICARD, the cut computed is 6 March 2026 and the due
    date 26 March 2026: addMonths moves 31 January to 3 March (31 February
    overflows), so the cut of the next month, 6 February, is skipped. *)
Theorem C7_cut_after_day_31_skips_a_month :
  normalizeToDay jan31 = jan31 /\
  (getFullYear jan31, getMonth jan31, getDate jan31) = (2026, 0, 31) /\
  addMonths jan31 1 = ymd 2026 3 3 /\
  getNextCutDate jan31 6 = ymd 2026 3 6 /\
  getNextCutDate jan31 6 <> newDate (getFullYear jan31) (getMonth jan31 + 1) 6 /\
  newDate (getFullYear jan31) (getMonth jan31 + 1) 6 = ymd 2026 2 6 /\
  option_map (fun w => (cutDate w, dueDate w, daysToPay w))
             (getPaymentWindow "RAPPICARD" jan31)
  = Some (ymd 2026 3 6, ymd 2026 3 26, 54).
Proof. vm_compute. repeat split; discriminate. Qed.

(** ** Sorting with a comparator of the form [key b - key a] *)

Section SortByKey.

Context {A : Type} (key : A -> Z).

Lemma insertBy_Permutation x l :
  Permutation (insertBy (fun a b => key b - key a) x l) (x :: l).
Proof.
  induction l as [| y l IH]; simpl; [reflexivity |].
  destruct (key y - key x <=? 0); [reflexivity |].
  rewrite IH. apply perm_swap.
Qed.

Lemma sortBy_Permutation l :
  Permutation (sortBy (fun a b => key b - key a) l) l.
Proof.
  induction l as [| x l IH]; simpl; [reflexivity |].
  unfold sortBy in IH. rewrite insertBy_Permutation. now constructor.
Qed.

Lemma insertBy_sorted x l :
  StronglySorted (descending key) l ->
  StronglySorted (descending key) (insertBy (fun a b => key b - key a) x l).
Proof.
  induction 1 as [| y l Hs IH Hall]; simpl.
  - repeat constructor.
  - destruct (Z.leb_spec (key y - key x) 0) as [Hle | Hgt].
    + constructor; [now constructor |].
      constructor; [unfold descending; lia |].
      eapply List.Forall_impl; [| exact Hall].
      unfold descending. intros z Hz. lia.
    + constructor; [exact IH |].
      assert (Hp := insertBy_Permutation x l).
      eapply Permutation_Forall; [symmetry; exact Hp |].
      constructor; [unfold descending; lia | exact Hall].
Qed.

Lemma sortBy_sorted l :
  StronglySorted (descending key) (sortBy (fun a b => key b - key a) l).
Proof.
  induction l as [| x l IH]; simpl; [constructor |].
  now apply insertBy_sorted.
Qed.

(** Stability: the elements with a given key keep their original order. *)
Lemma insertBy_filter v x l :
  List.filter (fun y => key y =? v) (insertBy (fun a b => key b - key a) x l)
  = List.filter (fun y => key y =? v) (x :: l).
Proof.
  induction l as [| y l IH]; [reflexivity |].
  cbn [insertBy]. destruct (Z.leb_spec (key y - key x) 0) as [Hle | Hgt];
    [reflexivity |].
  cbn [List.filter] in *. rewrite IH.
  destruct (Z.eqb_spec (key x) v); destruct (Z.eqb_spec (key y) v);
    try reflexivity; lia.
Qed.

Lemma sortBy_stable v l :
  List.filter (fun y => key y =? v) (sortBy (fun a b => key b - key a) l)
  = List.filter (fun y => key y =? v) l.
Proof.
  induction l as [| x l IH]; [reflexivity |].
  cbn [sortBy fold_right]. rewrite insertBy_filter.
  unfold sortBy in IH. cbn [List.filter]. now rewrite IH.
Qed.

End SortByKey.

(** ** C4 *)

Lemma lookupCycle_key catalog k :
  In k (map fst catalog) -> exists c, lookupCycle catalog k = Some c.
Proof.
  induction catalog as [| [k' c'] rest IH]; simpl; [tauto |].
  intros Hin. destruct (String.eqb_spec k' k) as [-> | Hne]; [eauto |].
  destruct Hin as [-> | Hin]; [contradiction | auto].
Qed.

Lemma notExcluded_spec (ex : list string) (bank : string) :
  notExcluded (list_to_set ex) bank = true <-> ~ In bank ex.
Proof.
  unfold notExcluded. rewrite negb_true_iff, bool_decide_eq_false.
  rewrite elem_of_list_to_set, list_elem_of_In. reflexivity.
Qed.

Lemma normalizeToDay_idem t : normalizeToDay (normalizeToDay t) = normalizeToDay t.
Proof. rewrite (normalizeToDay_normal t) at 2. reflexivity. Qed.

Lemma paymentWindow_normalized c t :
  paymentWindow c (normalizeToDay t) = paymentWindow c t.
Proof. unfold paymentWindow. now rewrite normalizeToDay_idem. Qed.

Lemma getPaymentWindowIn_normalized catalog bank t :
  getPaymentWindowIn catalog bank (normalizeToDay t)
  = getPaymentWindowIn catalog bank t.
Proof.
  unfold getPaymentWindowIn. destruct (lookupCycle catalog bank); [| reflexivity].
  now rewrite paymentWindow_normalized.
Qed.

(** The candidates are the non-excluded keys in catalog order, each with
    its own payment window. *)
Lemma rankCandidatesIn_banks catalog today ex :
  map rankedBank (rankCandidatesIn catalog today ex)
  = List.filter (notExcluded (list_to_set ex)) (map fst catalog).
Proof.
  unfold rankCandidatesIn.
  assert (H : forall k, In k (List.filter (notExcluded (list_to_set ex))
                                          (map fst catalog)) ->
                        exists c, lookupCycle catalog k = Some c).
  { intros k Hk. apply filter_In in Hk. now apply lookupCycle_key. }
  revert H. generalize (List.filter (notExcluded (list_to_set ex)) (map fst catalog)).
  intros l H. induction l as [| k l IH]; [reflexivity |].
  destruct (H k (or_introl eq_refl)) as [c Hc].
  cbn [map]. unfold getPaymentWindowIn at 1. rewrite Hc. cbn [filterBoolean map rankedBank].
  f_equal. apply IH. intros k' Hk'. apply H. now right.
Qed.

Lemma rankCandidatesIn_windows catalog today ex :
  Forall (fun x => getPaymentWindowIn catalog (rankedBank x) today
                   = Some (rankedWindow x))
         (rankCandidatesIn catalog today ex).
Proof.
  unfold rankCandidatesIn.
  generalize (List.filter (notExcluded (list_to_set ex)) (map fst catalog)).
  intros l. induction l as [| k l IH]; [constructor |].
  cbn [map filterBoolean].
  destruct (getPaymentWindowIn catalog k (normalizeToDay today)) as [w |] eqn:E;
    [| exact IH].
  constructor; [| exact IH]. cbn [rankedBank rankedWindow].
  now rewrite <- getPaymentWindowIn_normalized.
Qed.

Lemma map_filter_agree {X Y : Type} (f : X -> Y) (p : X -> bool) (q : Y -> bool)
    (l : list X) :
  Forall (fun x => p x = q (f x)) l ->
  map f (List.filter p l) = List.filter q (map f l).
Proof.
  induction 1 as [| x l Hx _ IH]; [reflexivity |].
  cbn [List.filter map]. rewrite <- Hx. destruct (p x); cbn [map]; now rewrite IH.
Qed.

(** C4. For every reference date and exclusion list, rankCardsByDaysToPay
    returns exactly the configured cards that are not excluded, each with
    its payment window for that date, sorted by daysToPay in descending
    order; and the cards tied on a value of daysToPay appear in the order
    they have in the catalog. *)
Theorem C4_ranking_sorted_descending_stable :
  forall (today : Z) (excludeBanks : list string),
    let ranking := rankCardsByDaysToPay today excludeBanks in
    let banks :=
      List.filter (notExcluded (list_to_set excludeBanks)) (map fst CARD_CYCLE) in
    Permutation (map rankedBank ranking) banks /\
    (forall b, In b (map rankedBank ranking) <->
               In b (map fst CARD_CYCLE) /\ ~ In b excludeBanks) /\
    Forall (fun x => getPaymentWindow (rankedBank x) today = Some (rankedWindow x))
           ranking /\
    StronglySorted (fun a b => rankedDays b <= rankedDays a) ranking /\
    (forall v, map rankedBank (List.filter (fun x => rankedDays x =? v) ranking)
               = List.filter (hasDaysToPay today v) banks).
Proof.
  intros today ex ranking banks.
  set (cands := rankCandidatesIn CARD_CYCLE today ex).
  assert (Hperm : Permutation ranking cands) by apply sortBy_Permutation.
  assert (Hbanks : map rankedBank cands = banks) by apply rankCandidatesIn_banks.
  assert (Hwin : Forall (fun x => getPaymentWindow (rankedBank x) today
                                  = Some (rankedWindow x)) cands)
    by apply rankCandidatesIn_windows.
  assert (P1 : Permutation (map rankedBank ranking) banks).
  { rewrite <- Hbanks. now apply Permutation_map. }
  split; [exact P1 |]. split.
  { intros b. split.
    - intros Hb. apply (Permutation_in _ P1) in Hb. apply filter_In in Hb.
      destruct Hb as [Hk Hn]. split; [exact Hk | now apply notExcluded_spec].
    - intros [Hk Hn]. apply (Permutation_in _ (Permutation_sym P1)).
      apply filter_In. split; [exact Hk | now apply notExcluded_spec]. }
  split.
  { eapply Permutation_Forall; [symmetry; exact Hperm | exact Hwin]. }
  split; [apply sortBy_sorted |].
  intros v. unfold ranking, rankCardsByDaysToPay, rankCardsByDaysToPayIn.
  rewrite (sortBy_stable rankedDays v). fold cands. rewrite <- Hbanks.
  apply map_filter_agree.
  eapply List.Forall_impl; [| exact Hwin].
  intros x Hx. unfold hasDaysToPay. now rewrite Hx.
Qed.

Example ranking_2026_01_10 :
  map (fun x => (rankedBank x, rankedDays x))
      (rankCardsByDaysToPay (ymd 2026 1 10) ["BBVA"%string])
  = [ ("RAPPICARD"%string, 47); ("BANAMEX"%string, 47); ("NU"%string, 40);
      ("HSBC"%string, 26); ("MERCADOPAGO"%string, 13) ].
Proof. vm_compute. reflexivity. Qed.

(** ** The callback handlers *)

Lemma savePurchaseToSheets_ok e purchase w :
  sheetsReady e = true -> appendOk e = true ->
  savePurchaseToSheets e purchase w
  = Some {| pendingPurchases := pendingPurchases w;
            sheet := sheet w ++ [sheetRow purchase] |}.
Proof. intros Hr Ha. unfold savePurchaseToSheets. now rewrite Hr, Ha. Qed.

Lemma savePurchaseToSheets_None e purchase w :
  savePurchaseToSheets e purchase w = None
  <-> sheetsReady e = false \/ appendOk e = false.
Proof.
  unfold savePurchaseToSheets.
  destruct (sheetsReady e), (appendOk e); simpl; intuition discriminate.
Qed.

Lemma saveAndDelete_ok e key purchase w :
  sheetsReady e = true -> appendOk e = true ->
  saveAndDelete e key purchase w
  = (committed key purchase w, [editMessageText TextSaved; answerCbQuery None]).
Proof.
  intros Hr Ha. unfold saveAndDelete.
  now rewrite (savePurchaseToSheets_ok e purchase w Hr Ha).
Qed.

Lemma saveAndDelete_fail e key purchase w :
  savePurchaseToSheets e purchase w = None ->
  saveAndDelete e key purchase w
  = (w, [consoleError; editMessageText TextSaveError; answerCbQuery None]).
Proof. intros H. unfold saveAndDelete. now rewrite H. Qed.

Lemma saveAndDelete_no_recommendation e key purchase w b c r :
  ~ In (editMessageText (TextRecommendation b c r))
       (snd (saveAndDelete e key purchase w)).
Proof.
  unfold saveAndDelete. destruct (savePurchaseToSheets e purchase w); simpl;
    intros H; repeat (destruct H as [H | H]; [discriminate H |]); exact H.
Qed.

Lemma shouldWarn_WARNED bestAlt chosen pending :
  stage pending = WARNED -> shouldWarn bestAlt chosen pending = false.
Proof.
  intros Hs. unfold shouldWarn. destruct bestAlt; [| reflexivity].
  rewrite Hs. apply andb_false_r.
Qed.

Lemma Stage_eqb_eq a b : Stage_eqb a b = true <-> a = b.
Proof. destruct a, b; simpl; split; congruence. Qed.

(** The handlers on a live (not expired) entry. *)
Lemma confirm_purchase_ok_live e key w pending :
  pendingPurchases w !! key = Some pending ->
  dateNow e - createdAt pending <= PENDING_TTL_MS ->
  confirm_purchase_ok e key w = saveAndDelete e key (data pending) w.
Proof.
  intros Hl Hlive. unfold confirm_purchase_ok. rewrite Hl.
  now rewrite (proj2 (Z.ltb_ge _ _) Hlive).
Qed.

Lemma confirm_purchase_live e key w pending :
  pendingPurchases w !! key = Some pending ->
  dateNow e - createdAt pending <= PENDING_TTL_MS ->
  confirm_purchase e key w =
  if bool_decide (bank (data pending) ∈ SKIP_CUT_VALIDATION)
  then saveAndDelete e key (data pending) w
  else
    match getPaymentWindow (bank (data pending)) (todayChosen e) with
    | None => saveAndDelete e key (data pending) w
    | Some chosen =>
        let ranking :=
          rankCardsByDaysToPay (todayRanking e) [bank (data pending)] in
        if shouldWarn (head ranking) chosen pending
        then (setPending key
                {| data := data pending; createdAt := createdAt pending;
                   stage := WARNED |} w,
              [editMessageText
                 (TextRecommendation (bank (data pending)) chosen
                                     (firstn 3 ranking));
               answerCbQuery None])
        else saveAndDelete e key (data pending) w
    end.
Proof.
  intros Hl Hlive. unfold confirm_purchase. rewrite Hl.
  now rewrite (proj2 (Z.ltb_ge _ _) Hlive).
Qed.

Lemma confirm_purchase_expired e key w pending :
  pendingPurchases w !! key = Some pending ->
  PENDING_TTL_MS < dateNow e - createdAt pending ->
  confirm_purchase e key w
  = (deletePending key w, [editMessageText TextExpired; answerCbQuery None]).
Proof.
  intros Hl Hexp. unfold confirm_purchase. rewrite Hl.
  now rewrite (proj2 (Z.ltb_lt _ _) Hexp).
Qed.

Lemma confirm_purchase_ok_expired e key w pending :
  pendingPurchases w !! key = Some pending ->
  PENDING_TTL_MS < dateNow e - createdAt pending ->
  confirm_purchase_ok e key w
  = (deletePending key w, [editMessageText TextExpired; answerCbQuery None]).
Proof.
  intros Hl Hexp. unfold confirm_purchase_ok. rewrite Hl.
  now rewrite (proj2 (Z.ltb_lt _ _) Hexp).
Qed.

Lemma deletePending_absent key w :
  pendingPurchases w !! key = None -> deletePending key w = w.
Proof.
  intros Hl. destruct w as [m s]. unfold deletePending. simpl in *.
  f_equal. now apply delete_id.
Qed.

Lemma SKIP_CUT_VALIDATION_spec b :
  b ∈ SKIP_CUT_VALIDATION <-> b = "CAPITAL"%string \/ b = "PRESTAMO"%string.
Proof. unfold SKIP_CUT_VALIDATION. set_solver. Qed.

(** ** C2 *)

(** C2 as stated fails for cancel: on an entry older than the TTL,
    cancel_purchase answers "cancelled", not "expired". *)
Lemma C2_cancel_of_expired_entry_counterexample :
  pendingPurchases (sampleWorld "RAPPICARD") !! sampleKey
  = Some {| data := samplePurchase "RAPPICARD"; createdAt := 1000;
            stage := PREVIEW |} /\
  PENDING_TTL_MS < dateNow (sampleEnv 500000 true) - 1000 /\
  snd (dispatch CancelAction (sampleEnv 500000 true) sampleKey
                (sampleWorld "RAPPICARD"))
  = [editMessageText TextCancelled; answerCbQuery None] /\
  dispatch CancelAction (sampleEnv 500000 true) sampleKey (sampleWorld "RAPPICARD")
  <> (deletePending sampleKey (sampleWorld "RAPPICARD"),
      [editMessageText TextExpired; answerCbQuery None]).
Proof.
  split; [reflexivity |]. split; [reflexivity |]. split; [reflexivity |].
  intros H. apply (f_equal snd) in H. discriminate H.
Qed.

(** C2 (amended).  For every pending entry older than the TTL, whether or
    not the sweep has run: confirm and confirm-anyway end in EXPIRED (the
    entry is removed, nothing is saved, the user is told that the
    confirmation expired); cancel removes the entry as well and saves
    nothing, and answers "cancelled". *)
Theorem C2_expired_entry_is_never_committed :
  forall (e : Env) (key : string) (w : World) (pending : Pending),
    pendingPurchases w !! key = Some pending ->
    PENDING_TTL_MS < dateNow e - createdAt pending ->
    confirm_purchase e key w
    = (deletePending key w, [editMessageText TextExpired; answerCbQuery None]) /\
    confirm_purchase_ok e key w
    = (deletePending key w, [editMessageText TextExpired; answerCbQuery None]) /\
    cancel_purchase key w
    = (deletePending key w, [editMessageText TextCancelled; answerCbQuery None]) /\
    (forall a : Action,
        pendingPurchases (fst (dispatch a e key w)) !! key = None /\
        sheet (fst (dispatch a e key w)) = sheet w).
Proof.
  intros e key w pending Hl Hexp.
  pose proof (confirm_purchase_expired e key w pending Hl Hexp) as H1.
  pose proof (confirm_purchase_ok_expired e key w pending Hl Hexp) as H2.
  repeat split; try assumption; try reflexivity;
    destruct a; simpl; rewrite ?H1, ?H2; simpl;
    solve [apply lookup_delete_eq | reflexivity].
Qed.

Lemma C2_expired_entry_is_never_committed_witness :
  confirm_purchase (sampleEnv 500000 true) sampleKey (sampleWorld "RAPPICARD")
  = (deletePending sampleKey (sampleWorld "RAPPICARD"),
     [editMessageText TextExpired; answerCbQuery None]) /\
  confirm_purchase_ok (sampleEnv 500000 true) sampleKey (sampleWorld "RAPPICARD")
  = (deletePending sampleKey (sampleWorld "RAPPICARD"),
     [editMessageText TextExpired; answerCbQuery None]) /\
  cancel_purchase sampleKey (sampleWorld "RAPPICARD")
  = (deletePending sampleKey (sampleWorld "RAPPICARD"),
     [editMessageText TextCancelled; answerCbQuery None]) /\
  (forall a : Action,
      pendingPurchases
        (fst (dispatch a (sampleEnv 500000 true) sampleKey
                       (sampleWorld "RAPPICARD"))) !! sampleKey = None /\
      sheet (fst (dispatch a (sampleEnv 500000 true) sampleKey
                           (sampleWorld "RAPPICARD")))
      = sheet (sampleWorld "RAPPICARD")).
Proof.
  apply (C2_expired_entry_is_never_committed
           (sampleEnv 500000 true) sampleKey (sampleWorld "RAPPICARD")
           {| data := samplePurchase "RAPPICARD"; createdAt := 1000;
              stage := PREVIEW |}).
  - reflexivity.
  - reflexivity.
Defined.

(** The sweep removes the entries older than the TTL and keeps the others. *)
Lemma sweepExpired_lookup now w key :
  pendingPurchases (sweepExpired now w) !! key
  = match pendingPurchases w !! key with
    | Some p => if PENDING_TTL_MS <? now - createdAt p then None else Some p
    | None => None
    end.
Proof.
  unfold sweepExpired. cbn [pendingPurchases].
  destruct (pendingPurchases w !! key) as [p |] eqn:Hl.
  - destruct (Z.ltb_spec PENDING_TTL_MS (now - createdAt p)) as [Hexp | Hlive].
    + apply map_lookup_filter_None. right. intros p' Hp'. simpl.
      rewrite Hl in Hp'. injection Hp' as <-. tauto.
    + apply map_lookup_filter_Some. split; [exact Hl |]. simpl. lia.
  - apply map_lookup_filter_None. now left.
Qed.

(** ** C3 *)

(** C3 as stated fails on an entry that was already warned: the ranking is
    not empty and its best card gives 47 days against 13 for the chosen
    one, yet shouldWarn is false. *)
Lemma C3_warned_stage_counterexample :
  pendingPurchases warnedWorld !! sampleKey = Some warnedPending /\
  getPaymentWindow "MERCADOPAGO" (ymd 2026 1 10) = Some sampleChosen /\
  daysToPay sampleChosen = 13 /\
  option_map rankedDays (head sampleRanking) = Some 47 /\
  shouldWarn (head sampleRanking) sampleChosen warnedPending = false /\
  ~ (shouldWarn (head sampleRanking) sampleChosen warnedPending = true <->
     sampleRanking <> [] /\
     (exists best, head sampleRanking = Some best /\
                   daysToPay sampleChosen + 5 <= rankedDays best)).
Proof.
  split; [vm_compute; reflexivity |].
  split; [vm_compute; reflexivity |].
  split; [vm_compute; reflexivity |].
  split; [vm_compute; reflexivity |].
  assert (Hf : shouldWarn (head sampleRanking) sampleChosen warnedPending = false)
    by (vm_compute; reflexivity).
  split; [exact Hf |].
  intros [_ H]. rewrite Hf in H. enough (false = true) by discriminate.
  apply H. split; [vm_compute; discriminate |].
  eexists. split; [vm_compute; reflexivity |]. vm_compute. discriminate.
Qed.

(** C3 (amended).  shouldWarn is true if and only if the ranking of the
    alternatives is not empty, its best card offers at least the days of
    the chosen card plus the threshold of 5 days (boundary included), and
    the entry has not been warned yet. *)
Theorem C3_shouldWarn_iff :
  forall (ranking : list RankedCard) (chosen : PaymentWindow) (pending : Pending),
    shouldWarn (head ranking) chosen pending = true <->
    ranking <> [] /\
    (exists best, head ranking = Some best /\
                  daysToPay chosen + 5 <= rankedDays best) /\
    stage pending <> WARNED.
Proof.
  intros ranking chosen pending. unfold shouldWarn, IMPROVEMENT_THRESHOLD_DAYS.
  destruct ranking as [| best rest]; cbn [head].
  - split; [discriminate | intros [H _]; now contradiction H].
  - rewrite andb_true_iff, Z.leb_le, negb_true_iff.
    split.
    + intros [Hle Hst]. split; [discriminate |]. split; [eauto |].
      intros Hw. rewrite (proj2 (Stage_eqb_eq _ _) Hw) in Hst. discriminate.
    + intros (_ & (b & [= <-] & Hle) & Hst). split; [exact Hle |].
      destruct (Stage_eqb (stage pending) WARNED) eqn:E; [| reflexivity].
      apply Stage_eqb_eq in E. contradiction.
Qed.

(** The boundary scenarios of the specification, on an entry in PREVIEW. *)
Example shouldWarn_boundary :
  let card d := {| rankedBank := "BBVA";
                   rankedWindow := {| cutDate := 0; dueDate := 0; daysToPay := d;
                                      cfg := {| cutDay := 24; dueDay := 13;
                                                dueOffset := 1 |} |} |} in
  let chosen := {| cutDate := 0; dueDate := 0; daysToPay := 10;
                   cfg := {| cutDay := 6; dueDay := 26; dueOffset := 0 |} |} in
  let pending := {| data := samplePurchase "RAPPICARD"; createdAt := 1000;
                    stage := PREVIEW |} in
  shouldWarn (Some (card 16)) chosen pending = true /\
  shouldWarn (Some (card 15)) chosen pending = true /\
  shouldWarn (Some (card 14)) chosen pending = false /\
  shouldWarn None chosen pending = false.
Proof. repeat split. Qed.

(** ** C5 *)

(** C5. Once an entry has stage WARNED, neither a repeated confirm nor the
    confirm-anyway action shows a recommendation again: the advisory test
    is false whatever the ranking, and on a live entry with the
    spreadsheet reachable both actions commit the purchase (the row is
    appended, the entry removed), independently of the dates read. *)
Theorem C5_warned_entry_is_not_warned_again :
  forall (e : Env) (key : string) (w : World) (pending : Pending),
    pendingPurchases w !! key = Some pending ->
    stage pending = WARNED ->
    (forall bestAlt chosen, shouldWarn bestAlt chosen pending = false) /\
    (forall a b c r,
        a = Confirm \/ a = ConfirmAnyway ->
        ~ In (editMessageText (TextRecommendation b c r))
             (snd (dispatch a e key w))) /\
    (dateNow e - createdAt pending <= PENDING_TTL_MS ->
     sheetsReady e = true -> appendOk e = true ->
     confirm_purchase e key w
     = (committed key (data pending) w,
        [editMessageText TextSaved; answerCbQuery None]) /\
     confirm_purchase_ok e key w
     = (committed key (data pending) w,
        [editMessageText TextSaved; answerCbQuery None])).
Proof.
  intros e key w pending Hl Hst.
  assert (Hconfirm :
            dateNow e - createdAt pending <= PENDING_TTL_MS ->
            confirm_purchase e key w = saveAndDelete e key (data pending) w).
  { intros Hlive. rewrite (confirm_purchase_live e key w pending Hl Hlive).
    destruct (bool_decide _); [reflexivity |].
    destruct (getPaymentWindow _ _); [| reflexivity].
    cbv zeta. now rewrite (shouldWarn_WARNED _ _ _ Hst). }
  split; [intros; now apply shouldWarn_WARNED |]. split.
  - intros a b c r Ha.
    destruct (Z_lt_le_dec PENDING_TTL_MS (dateNow e - createdAt pending))
      as [Hexp | Hlive].
    + destruct Ha as [-> | ->]; cbn [dispatch];
        [rewrite (confirm_purchase_expired e key w pending Hl Hexp)
        | rewrite (confirm_purchase_ok_expired e key w pending Hl Hexp)];
        simpl; intros H; repeat (destruct H as [H | H]; [discriminate H |]);
        exact H.
    + destruct Ha as [-> | ->]; cbn [dispatch];
        [rewrite (Hconfirm Hlive)
        | rewrite (confirm_purchase_ok_live e key w pending Hl Hlive)];
        apply saveAndDelete_no_recommendation.
  - intros Hlive Hr Ha. split.
    + rewrite (Hconfirm Hlive). now apply saveAndDelete_ok.
    + rewrite (confirm_purchase_ok_live e key w pending Hl Hlive).
      now apply saveAndDelete_ok.
Qed.

Lemma C5_warned_entry_is_not_warned_again_witness :
  pendingPurchases warnedWorld !! sampleKey
  = Some {| data := samplePurchase "MERCADOPAGO"; createdAt := 1000;
            stage := WARNED |} /\
  confirm_purchase (sampleEnv 3000 true) sampleKey warnedWorld
  = (committed sampleKey (samplePurchase "MERCADOPAGO") warnedWorld,
     [editMessageText TextSaved; answerCbQuery None]).
Proof.
  split; [vm_compute; reflexivity |].
  apply (C5_warned_entry_is_not_warned_again
           (sampleEnv 3000 true) sampleKey warnedWorld
           {| data := samplePurchase "MERCADOPAGO"; createdAt := 1000;
              stage := WARNED |}).
  - vm_compute. reflexivity.
  - reflexivity.
  - vm_compute. discriminate.
  - reflexivity.
  - reflexivity.
Defined.

(** ** C6 *)

(** C6. If the append to the spreadsheet fails while a live entry is being
    committed, the handler leaves the store as it was (entry included) and
    reports the error; in no case does a confirm with a failing append
    delete the entry, so the user can confirm again. *)
Theorem C6_failed_append_keeps_pending_entry :
  forall (e : Env) (key : string) (w : World) (pending : Pending),
    pendingPurchases w !! key = Some pending ->
    dateNow e - createdAt pending <= PENDING_TTL_MS ->
    savePurchaseToSheets e (data pending) w = None ->
    confirm_purchase_ok e key w
    = (w, [consoleError; editMessageText TextSaveError; answerCbQuery None]) /\
    (confirm_purchase e key w
     = (w, [consoleError; editMessageText TextSaveError; answerCbQuery None]) \/
     exists chosen ranking,
       stage pending = PREVIEW /\
       confirm_purchase e key w
       = (setPending key {| data := data pending; createdAt := createdAt pending;
                            stage := WARNED |} w,
          [editMessageText (TextRecommendation (bank (data pending)) chosen ranking);
           answerCbQuery None])) /\
    (forall a, a = Confirm \/ a = ConfirmAnyway ->
       sheet (fst (dispatch a e key w)) = sheet w /\
       exists p', pendingPurchases (fst (dispatch a e key w)) !! key = Some p' /\
                  data p' = data pending /\ createdAt p' = createdAt pending).
Proof.
  intros e key w pending Hl Hlive Hfail.
  pose proof (saveAndDelete_fail e key (data pending) w Hfail) as Hsd.
  assert (Hok : confirm_purchase_ok e key w
                = (w, [consoleError; editMessageText TextSaveError;
                       answerCbQuery None])).
  { now rewrite (confirm_purchase_ok_live e key w pending Hl Hlive). }
  assert (Hc : confirm_purchase e key w
     = (w, [consoleError; editMessageText TextSaveError; answerCbQuery None]) \/
     exists chosen ranking,
       stage pending = PREVIEW /\
       confirm_purchase e key w
       = (setPending key {| data := data pending; createdAt := createdAt pending;
                            stage := WARNED |} w,
          [editMessageText (TextRecommendation (bank (data pending)) chosen ranking);
           answerCbQuery None])).
  { rewrite (confirm_purchase_live e key w pending Hl Hlive).
    destruct (bool_decide _); [now left |].
    destruct (getPaymentWindow _ _) as [chosen |]; [| now left].
    cbv zeta.
    destruct (shouldWarn _ chosen pending) eqn:Hw; [| now left].
    right. eexists. eexists. split; [| reflexivity].
    destruct (stage pending) eqn:Hst; [reflexivity |].
    now rewrite (shouldWarn_WARNED _ _ _ Hst) in Hw. }
  split; [exact Hok |]. split; [exact Hc |].
  intros a [-> | ->]; cbn [dispatch].
  - destruct Hc as [-> | (chosen & ranking & _ & ->)]; cbn [fst].
    + split; [reflexivity |]. exists pending. now rewrite Hl.
    + split; [reflexivity |]. eexists. cbn [setPending pendingPurchases].
      rewrite lookup_insert_eq. split; [reflexivity |]. split; reflexivity.
  - rewrite Hok. cbn [fst]. split; [reflexivity |]. exists pending. now rewrite Hl.
Qed.

Lemma C6_failed_append_keeps_pending_entry_witness :
  savePurchaseToSheets (sampleEnv 3000 false) (samplePurchase "RAPPICARD")
                       (sampleWorld "RAPPICARD") = None /\
  confirm_purchase (sampleEnv 3000 false) sampleKey (sampleWorld "RAPPICARD")
  = (sampleWorld "RAPPICARD",
     [consoleError; editMessageText TextSaveError; answerCbQuery None]) /\
  confirm_purchase_ok (sampleEnv 3000 false) sampleKey (sampleWorld "RAPPICARD")
  = (sampleWorld "RAPPICARD",
     [consoleError; editMessageText TextSaveError; answerCbQuery None]).
Proof.
  split; [reflexivity |].
  split; [vm_compute; reflexivity |].
  apply (C6_failed_append_keeps_pending_entry
           (sampleEnv 3000 false) sampleKey (sampleWorld "RAPPICARD")
           {| data := samplePurchase "RAPPICARD"; createdAt := 1000;
              stage := PREVIEW |}).
  - reflexivity.
  - vm_compute. discriminate.
  - reflexivity.
Defined.

(** ** C8 *)

(** C8. A confirm on a live entry whose card is in the cycle-exempt set
    (CAPITAL, PRESTAMO) or has no cycle in the catalog goes straight to the
    save, whatever the dates and the ranking, and whatever the stage: with
    the spreadsheet reachable the purchase is committed, and no
    recommendation is ever shown. *)
Theorem C8_exempt_or_unconfigured_card_commits_directly :
  forall (e : Env) (key : string) (w : World) (pending : Pending),
    pendingPurchases w !! key = Some pending ->
    dateNow e - createdAt pending <= PENDING_TTL_MS ->
    bank (data pending) ∈ SKIP_CUT_VALIDATION \/
    lookupCycle CARD_CYCLE (bank (data pending)) = None ->
    confirm_purchase e key w = saveAndDelete e key (data pending) w /\
    (forall b c r, ~ In (editMessageText (TextRecommendation b c r))
                        (snd (confirm_purchase e key w))) /\
    (sheetsReady e = true -> appendOk e = true ->
     confirm_purchase e key w
     = (committed key (data pending) w,
        [editMessageText TextSaved; answerCbQuery None])).
Proof.
  intros e key w pending Hl Hlive Hcard.
  assert (H : confirm_purchase e key w = saveAndDelete e key (data pending) w).
  { rewrite (confirm_purchase_live e key w pending Hl Hlive).
    destruct Hcard as [Hskip | Hnone].
    - now rewrite (bool_decide_eq_true_2 _ Hskip).
    - destruct (bool_decide _); [reflexivity |].
      unfold getPaymentWindow, getPaymentWindowIn. now rewrite Hnone. }
  split; [exact H |]. split.
  - intros b c r. rewrite H. apply saveAndDelete_no_recommendation.
  - intros Hr Ha. rewrite H. now apply saveAndDelete_ok.
Qed.

Lemma C8_exempt_or_unconfigured_card_commits_directly_witness :
  "CAPITAL"%string ∈ SKIP_CUT_VALIDATION /\
  confirm_purchase (sampleEnv 3000 true) sampleKey (sampleWorld "CAPITAL")
  = (committed sampleKey (samplePurchase "CAPITAL") (sampleWorld "CAPITAL"),
     [editMessageText TextSaved; answerCbQuery None]).
Proof.
  assert (Hskip : "CAPITAL"%string ∈ SKIP_CUT_VALIDATION)
    by (apply SKIP_CUT_VALIDATION_spec; now left).
  split; [exact Hskip |].
  apply (C8_exempt_or_unconfigured_card_commits_directly
           (sampleEnv 3000 true) sampleKey (sampleWorld "CAPITAL")
           {| data := samplePurchase "CAPITAL"; createdAt := 1000;
              stage := PREVIEW |}).
  - reflexivity.
  - vm_compute. discriminate.
  - left. exact Hskip.
  - reflexivity.
  - reflexivity.
Defined.

(** A card that is neither exempt nor in the catalog is saved directly too. *)
Example unconfigured_card_commits :
  lookupCycle CARD_CYCLE "AMEX" = None /\
  confirm_purchase (sampleEnv 3000 true) sampleKey (sampleWorld "AMEX")
  = (committed sampleKey (samplePurchase "AMEX") (sampleWorld "AMEX"),
     [editMessageText TextSaved; answerCbQuery None]).
Proof. split; vm_compute; reflexivity. Qed.

(** ** C9 *)

(** C9 as stated fails for cancel: with nothing pending, cancel_purchase
    answers "cancelled" instead of the "nothing pending" notice. *)
Lemma C9_cancel_with_nothing_pending_counterexample :
  pendingPurchases emptyWorld !! sampleKey = None /\
  snd (dispatch CancelAction (sampleEnv 3000 true) sampleKey emptyWorld)
  = [editMessageText TextCancelled; answerCbQuery None] /\
  dispatch CancelAction (sampleEnv 3000 true) sampleKey emptyWorld
  <> (emptyWorld, [answerCbQuery (Some TextNoPending)]).
Proof.
  split; [reflexivity |]. split; [reflexivity |].
  intros H. apply (f_equal snd) in H. discriminate H.
Qed.

(** C9 (amended).  With no pending entry for the key, no action commits
    anything or changes the store: confirm and confirm-anyway are rejected
    with the "nothing pending" notice; cancel answers "cancelled". *)
Theorem C9_no_pending_entry_is_a_no_op :
  forall (e : Env) (key : string) (w : World),
    pendingPurchases w !! key = None ->
    confirm_purchase e key w = (w, [answerCbQuery (Some TextNoPending)]) /\
    confirm_purchase_ok e key w = (w, [answerCbQuery (Some TextNoPending)]) /\
    cancel_purchase key w
    = (w, [editMessageText TextCancelled; answerCbQuery None]) /\
    (forall a : Action,
        fst (dispatch a e key w) = w /\
        ~ In (editMessageText TextSaved) (snd (dispatch a e key w))).
Proof.
  intros e key w Hl.
  assert (H1 : confirm_purchase e key w = (w, [answerCbQuery (Some TextNoPending)]))
    by (unfold confirm_purchase; now rewrite Hl).
  assert (H2 : confirm_purchase_ok e key w
               = (w, [answerCbQuery (Some TextNoPending)]))
    by (unfold confirm_purchase_ok; now rewrite Hl).
  assert (H3 : cancel_purchase key w
               = (w, [editMessageText TextCancelled; answerCbQuery None]))
    by (unfold cancel_purchase; now rewrite (deletePending_absent key w Hl)).
  split; [exact H1 |]. split; [exact H2 |]. split; [exact H3 |].
  intros a. destruct a; cbn [dispatch]; rewrite ?H1, ?H2, ?H3; cbn [fst snd];
    (split; [reflexivity |]);
    intros H; repeat (destruct H as [H | H]; [discriminate H |]); exact H.
Qed.

Lemma C9_no_pending_entry_is_a_no_op_witness :
  pendingPurchases emptyWorld !! sampleKey = None /\
  confirm_purchase (sampleEnv 3000 true) sampleKey emptyWorld
  = (emptyWorld, [answerCbQuery (Some TextNoPending)]).
Proof.
  split; [reflexivity |].
  apply (C9_no_pending_entry_is_a_no_op (sampleEnv 3000 true) sampleKey emptyWorld).
  reflexivity.
Defined.

(** ** C10 *)

(** C10. confirm_purchase_ok does not look at the stage: on every live
    entry, in PREVIEW as well as in WARNED, it goes straight to the save
    without computing any window or ranking, and with the spreadsheet
    reachable it commits the purchase. *)
Theorem C10_confirm_anyway_ignores_stage :
  forall (e : Env) (key : string) (w : World) (pending : Pending),
    pendingPurchases w !! key = Some pending ->
    dateNow e - createdAt pending <= PENDING_TTL_MS ->
    confirm_purchase_ok e key w = saveAndDelete e key (data pending) w /\
    (forall b c r, ~ In (editMessageText (TextRecommendation b c r))
                        (snd (confirm_purchase_ok e key w))) /\
    (sheetsReady e = true -> appendOk e = true ->
     confirm_purchase_ok e key w
     = (committed key (data pending) w,
        [editMessageText TextSaved; answerCbQuery None])).
Proof.
  intros e key w pending Hl Hlive.
  pose proof (confirm_purchase_ok_live e key w pending Hl Hlive) as H.
  split; [exact H |]. split.
  - intros b c r. rewrite H. apply saveAndDelete_no_recommendation.
  - intros Hr Ha. rewrite H. now apply saveAndDelete_ok.
Qed.

(** An entry still in PREVIEW, for which a confirm would show the
    recommendation, is committed by confirm-anyway. *)
Lemma C10_confirm_anyway_ignores_stage_witness :
  option_map stage (pendingPurchases (sampleWorld "MERCADOPAGO") !! sampleKey)
  = Some PREVIEW /\
  option_map stage
    (pendingPurchases
       (fst (confirm_purchase (sampleEnv 3000 true) sampleKey
                              (sampleWorld "MERCADOPAGO"))) !! sampleKey)
  = Some WARNED /\
  confirm_purchase_ok (sampleEnv 3000 true) sampleKey (sampleWorld "MERCADOPAGO")
  = (committed sampleKey (samplePurchase "MERCADOPAGO") (sampleWorld "MERCADOPAGO"),
     [editMessageText TextSaved; answerCbQuery None]).
Proof.
  split; [vm_compute; reflexivity |].
  split; [vm_compute; reflexivity |].
  apply (C10_confirm_anyway_ignores_stage
           (sampleEnv 3000 true) sampleKey (sampleWorld "MERCADOPAGO")
           {| data := samplePurchase "MERCADOPAGO"; createdAt := 1000;
              stage := PREVIEW |}).
  - reflexivity.
  - vm_compute. discriminate.
  - reflexivity.
  - reflexivity.
Defined.

(** * Further properties of the code *)

(** ** The date helpers *)

Lemma TimeWithinDay_MakeDate d : TimeWithinDay (MakeDate d 0) = 0.
Proof. unfold TimeWithinDay, MakeDate, msPerDay. divlia. Qed.

(** X1. normalizeToDay returns the local midnight of the same calendar
    day: it is at most one day before its argument, has no time of day
    left, shows the same year, month and day, and is idempotent. *)
Theorem X1_normalizeToDay_is_midnight_of_same_day :
  forall t : Z,
    normalizeToDay t <= t < normalizeToDay t + msPerDay /\
    TimeWithinDay (normalizeToDay t) = 0 /\
    getFullYear (normalizeToDay t) = getFullYear t /\
    getMonth (normalizeToDay t) = getMonth t /\
    getDate (normalizeToDay t) = getDate t /\
    normalizeToDay (normalizeToDay t) = normalizeToDay t.
Proof.
  intros t. split; [apply normalizeToDay_le |].
  split; [rewrite normalizeToDay_normal; apply TimeWithinDay_MakeDate |].
  destruct (getters_Day (normalizeToDay t) t (Day_normalizeToDay t))
    as (Hy & Hm & Hd).
  repeat split; try assumption. apply normalizeToDay_idem.
Qed.

(** X2. On a day of the month that every month has (1 to 28), addMonths
    moves the date by exactly [months] months, forwards or backwards,
    keeping the day of the month, and returns a midnight. *)
Theorem X2_addMonths_keeps_day_up_to_28 :
  forall t months : Z,
    getDate t <= 28 ->
    monthIndex (addMonths t months) = monthIndex t + months /\
    getDate (addMonths t months) = getDate t /\
    TimeWithinDay (addMonths t months) = 0.
Proof.
  intros t k H28. destruct (addMonths_exact t k H28) as [Hk Hd].
  split; [exact Hk |]. split; [exact Hd |].
  rewrite addMonths_eq. apply TimeWithinDay_MakeDate.
Qed.

Lemma X2_addMonths_keeps_day_up_to_28_witness :
  getDate jan10 <= 28 /\
  monthIndex (addMonths jan10 (-2)) = monthIndex jan10 + -2 /\
  getDate (addMonths jan10 (-2)) = getDate jan10 /\
  TimeWithinDay (addMonths jan10 (-2)) = 0.
Proof.
  split; [vm_compute; discriminate |].
  apply (X2_addMonths_keeps_day_up_to_28 jan10 (-2)).
  vm_compute. discriminate.
Defined.

(** X3. Whatever the day of the month, addMonths lands in the requested
    month or, when that month is too short for the day, in the one after
    it: a day that does not exist is not clamped but carried over. *)
Theorem X3_addMonths_overflows_by_at_most_one_month :
  forall t months : Z,
    monthIndex t + months <= monthIndex (addMonths t months)
                          <= monthIndex t + months + 1 /\
    (monthIndex (addMonths t months) = monthIndex t + months + 1 ->
     28 < getDate t /\ getDate (addMonths t months) <= 3).
Proof.
  intros t k.
  pose proof (Day_addMonths t k) as HD.
  pose proof (getDate_pos t) as Hpos.
  pose proof (getDate_le_31 t) as H31.
  pose proof (firstDay_step (monthIndex t + k)) as Hs1.
  pose proof (firstDay_step (monthIndex t + k + 1)) as Hs2.
  assert (Hlo : monthIndex t + k <= monthIndex (addMonths t k))
    by (apply monthIndex_ge; lia).
  assert (Hhi : monthIndex (addMonths t k) < monthIndex t + k + 1 + 1)
    by (apply monthIndex_lt; lia).
  split; [lia |]. intros E.
  pose proof (getDate_spec (addMonths t k)) as Hg. rewrite E in Hg.
  pose proof (monthIndex_spec (addMonths t k)) as [[Hl _] _]. rewrite E in Hl.
  lia.
Qed.

(** X4. On days 1 to 28 two moves by months add up. *)
Theorem X4_addMonths_composes :
  forall t a b : Z,
    getDate t <= 28 ->
    addMonths (addMonths t a) b = addMonths t (a + b).
Proof.
  intros t a b H28.
  destruct (addMonths_exact t a H28) as (Hk & Hd).
  rewrite (addMonths_eq (addMonths t a) b), Hk, Hd.
  rewrite (addMonths_eq t (a + b)). do 2 f_equal. f_equal. f_equal. lia.
Qed.

Lemma X4_addMonths_composes_witness :
  getDate jan10 <= 28 /\
  addMonths (addMonths jan10 14) (-3) = addMonths jan10 (14 + -3).
Proof.
  split; [vm_compute; discriminate |].
  apply (X4_addMonths_composes jan10 14 (-3)). vm_compute. discriminate.
Defined.

(** X5. For a day 1 to 28, buildDateYMDay keeps the month of the base
    date and sets the day; the year is the one of the base date, except
    that a base year 0 to 99 becomes 1900 to 1999 (the two-digit rule of
    the Date constructor). *)
Theorem X5_buildDateYMDay_fields :
  forall baseDate day : Z,
    1 <= day <= 28 ->
    getFullYear (buildDateYMDay baseDate day) = twoDigitYear (getFullYear baseDate) /\
    getMonth (buildDateYMDay baseDate day) = getMonth baseDate /\
    getDate (buildDateYMDay baseDate day) = day /\
    TimeWithinDay (buildDateYMDay baseDate day) = 0.
Proof.
  intros base day Hd.
  pose proof (buildDateYMDay_getDate base day Hd) as Hg.
  destruct (getFullYear_buildDateYMDay base day Hg) as [Hy Hm].
  repeat split; try assumption.
  rewrite buildDateYMDay_eq. apply TimeWithinDay_MakeDate.
Qed.

Lemma X5_buildDateYMDay_fields_witness :
  getFullYear (buildDateYMDay (ymd 50 3 5) 6) = twoDigitYear (getFullYear (ymd 50 3 5)) /\
  getMonth (buildDateYMDay (ymd 50 3 5) 6) = getMonth (ymd 50 3 5) /\
  getDate (buildDateYMDay (ymd 50 3 5) 6) = 6 /\
  TimeWithinDay (buildDateYMDay (ymd 50 3 5) 6) = 0.
Proof. apply (X5_buildDateYMDay_fields (ymd 50 3 5) 6). lia. Defined.

Lemma normalizeToDay_MakeDate t : normalizeToDay t = MakeDate (Day t) 0.
Proof. reflexivity. Qed.

(** X6. Outside the years 0 to 99, rebuilding a date from its own day of
    the month gives back the midnight of that date. *)
Theorem X6_buildDateYMDay_own_day :
  forall t : Z,
    ~ (0 <= getFullYear t <= 99) ->
    buildDateYMDay t (getDate t) = normalizeToDay t.
Proof.
  intros t Hy. rewrite buildDateYMDay_eq, (twoDigitYear_id _ Hy).
  rewrite <- monthIndex_getters, normalizeToDay_MakeDate.
  pose proof (getDate_spec t). f_equal. lia.
Qed.

Lemma X6_buildDateYMDay_own_day_witness :
  ~ (0 <= getFullYear mar31 <= 99) /\
  buildDateYMDay mar31 (getDate mar31) = normalizeToDay mar31.
Proof.
  assert (H : ~ (0 <= getFullYear mar31 <= 99)).
  { vm_compute. intros [_ H]. apply H. reflexivity. }
  split; [exact H |]. apply (X6_buildDateYMDay_own_day mar31 H).
Defined.

(** ** The next cut and the payment window *)

Lemma getNextCutDate_within_61_days t cutDay :
  1 <= cutDay <= 31 -> 100 <= getFullYear t -> t = MakeDate (Day t) 0 ->
  Day (getNextCutDate t cutDay) - Day t <= 61.
Proof.
  intros Hc Hy Hn.
  pose proof (monthIndex_spec t) as [[Hl Hu] _].
  pose proof (getMonth_range t) as Hm.
  pose proof (monthIndex_getters t) as Hmi.
  pose proof (Day_buildDateYMDay t cutDay) as Hthis.
  rewrite twoDigitYear_id, <- monthIndex_getters in Hthis by lia.
  unfold getNextCutDate.
  destruct (Z.leb_spec t (buildDateYMDay t cutDay)) as [_ | Hgt];
    [pose proof (firstDay_step (monthIndex t)); lia |].
  assert (Hgt' : MakeDate (Day (buildDateYMDay t cutDay)) 0 < MakeDate (Day t) 0).
  { rewrite <- Hn. now rewrite <- buildDateYMDay_normal. }
  apply (proj1 (MakeDate_lt _ _)) in Hgt'.
  set (next := addMonths t 1) in *.
  assert (Hk : monthIndex t + 1 <= monthIndex next <= monthIndex t + 2).
  { pose proof (Day_addMonths t 1) as HD. fold next in HD.
    pose proof (getDate_pos t). pose proof (getDate_le_31 t).
    pose proof (firstDay_step (monthIndex t + 1)).
    pose proof (firstDay_step (monthIndex t + 1 + 1)).
    assert (monthIndex t + 1 <= monthIndex next) by (apply monthIndex_ge; lia).
    assert (monthIndex next < monthIndex t + 1 + 1 + 1) by (apply monthIndex_lt; lia).
    lia. }
  assert (Hy' : 100 <= getFullYear next) by (apply year_of_index_ge; lia).
  pose proof (Day_buildDateYMDay next cutDay) as Hnext.
  rewrite twoDigitYear_id, <- monthIndex_getters in Hnext by lia.
  pose proof (firstDay_le (monthIndex next) (monthIndex t + 2)) as Hle2.
  pose proof (firstDay_step (monthIndex t)).
  pose proof (firstDay_step (monthIndex t + 1)).
  replace (monthIndex t + 1 + 1) with (monthIndex t + 2) in * by lia.
  lia.
Qed.

(** X7. The cut date computed for a day is never before that day, and
    (for a cut day 1 to 31 and a year from 100 on) at most 61 days after
    it. *)
Theorem X7_next_cut_is_not_in_the_past :
  forall today cutDay : Z,
    1 <= cutDay ->
    normalizeToDay today <= getNextCutDate (normalizeToDay today) cutDay /\
    (cutDay <= 31 -> 100 <= getFullYear today ->
     Day (getNextCutDate (normalizeToDay today) cutDay) - Day today <= 61).
Proof.
  intros today cutDay Hc. split.
  - apply getNextCutDate_not_past; [exact Hc | apply normalizeToDay_normal].
  - intros H31 Hy.
    destruct (getters_Day (normalizeToDay today) today (Day_normalizeToDay today))
      as (Ey & _ & _).
    pose proof (getNextCutDate_within_61_days (normalizeToDay today) cutDay) as H.
    rewrite Day_normalizeToDay in H.
    apply H; [lia | rewrite Ey; exact Hy |].
    rewrite <- (Day_normalizeToDay today). apply normalizeToDay_normal.
Qed.

Lemma X7_next_cut_is_not_in_the_past_witness :
  normalizeToDay mar31 <= getNextCutDate (normalizeToDay mar31) 30 /\
  (30 <= 31 -> 100 <= getFullYear mar31 ->
   Day (getNextCutDate (normalizeToDay mar31) 30) - Day mar31 <= 61).
Proof. apply (X7_next_cut_is_not_in_the_past mar31 30). lia. Defined.

Example next_cut_60_days_ahead :
  Day (getNextCutDate (normalizeToDay mar31) 30) - Day mar31 = 60.
Proof. vm_compute. reflexivity. Qed.

Lemma ceilDiv_whole_days a b :
  ceilDiv (MakeDate a 0 - MakeDate b 0) (1000 * 60 * 60 * 24) = a - b.
Proof. unfold ceilDiv, MakeDate, msPerDay. divlia. Qed.

Lemma ceilDiv_normal due t :
  due = MakeDate (Day due) 0 ->
  ceilDiv (due - MakeDate (Day t) 0) (1000 * 60 * 60 * 24) = Day due - Day t.
Proof.
  intros H. remember (Day due) as a eqn:Ea. rewrite H. apply ceilDiv_whole_days.
Qed.

Lemma paymentWindow_dueDate_normal c today :
  dueDate (paymentWindow c today)
  = MakeDate (Day (dueDate (paymentWindow c today))) 0.
Proof.
  unfold paymentWindow. cbn [dueDate].
  destruct (_ <=? _); apply buildDateYMDay_normal.
Qed.

Lemma paymentWindow_daysToPay c today :
  daysToPay (paymentWindow c today)
  = Z.max 0 (ceilDiv (dueDate (paymentWindow c today) - normalizeToDay today)
                     (1000 * 60 * 60 * 24)).
Proof. unfold paymentWindow. cbn [daysToPay dueDate]. reflexivity. Qed.

(** X8. For a cycle with cut and due days from 1 on and a non-negative
    offset, the reference day is not after the cut date, the cut date is
    before the due date, and daysToPay is at least 1: the clamp at zero
    never applies and no window shows zero days. *)
Theorem X8_window_ahead_and_days_at_least_one :
  forall (c : CycleConfig) (today : Z),
    1 <= cutDay c -> 1 <= dueDay c -> 0 <= dueOffset c ->
    normalizeToDay today <= cutDate (paymentWindow c today) /\
    cutDate (paymentWindow c today) < dueDate (paymentWindow c today) /\
    1 <= daysToPay (paymentWindow c today).
Proof.
  intros c today Hc Hd Ho.
  assert (H1 : normalizeToDay today <= cutDate (paymentWindow c today)).
  { rewrite paymentWindow_cutDate.
    apply getNextCutDate_not_past; [exact Hc | apply normalizeToDay_normal]. }
  pose proof (paymentWindow_cut_lt_due c today Hd Ho) as H2.
  pose proof (paymentWindow_dueDate_normal c today) as Hn.
  pose proof (paymentWindow_daysToPay c today) as Hdays.
  remember (dueDate (paymentWindow c today)) as due eqn:Edue. clear Edue.
  remember (cutDate (paymentWindow c today)) as cut eqn:Ecut. clear Ecut.
  remember (daysToPay (paymentWindow c today)) as days eqn:Edays. clear Edays.
  rewrite normalizeToDay_MakeDate in *.
  rewrite (ceilDiv_normal due today Hn) in Hdays.
  assert (H4 : MakeDate (Day today) 0 < MakeDate (Day due) 0)
    by (rewrite <- Hn; lia).
  apply (proj1 (MakeDate_lt _ _)) in H4.
  repeat split; try assumption; lia.
Qed.

Lemma X8_window_ahead_and_days_at_least_one_witness :
  normalizeToDay jan31
  <= cutDate (paymentWindow {| cutDay := 24; dueDay := 13; dueOffset := 1 |} jan31) /\
  cutDate (paymentWindow {| cutDay := 24; dueDay := 13; dueOffset := 1 |} jan31)
  < dueDate (paymentWindow {| cutDay := 24; dueDay := 13; dueOffset := 1 |} jan31) /\
  1 <= daysToPay (paymentWindow {| cutDay := 24; dueDay := 13; dueOffset := 1 |}
                                jan31).
Proof.
  apply (X8_window_ahead_and_days_at_least_one
           {| cutDay := 24; dueDay := 13; dueOffset := 1 |} jan31);
    simpl; lia.
Defined.

Lemma normalizeToDay_same_day t t' :
  Day t = Day t' -> normalizeToDay t = normalizeToDay t'.
Proof. intros H. rewrite !normalizeToDay_MakeDate. now rewrite H. Qed.

(** X9. The payment window and the ranking depend on the calendar day
    only: two instants of the same day give the same window for every
    cycle and the same ranking. *)
Theorem X9_window_and_ranking_ignore_time_of_day :
  forall t t' : Z,
    Day t = Day t' ->
    (forall c, paymentWindow c t = paymentWindow c t') /\
    (forall bank, getPaymentWindow bank t = getPaymentWindow bank t') /\
    (forall excludeBanks,
        rankCardsByDaysToPay t excludeBanks = rankCardsByDaysToPay t' excludeBanks).
Proof.
  intros t t' H. pose proof (normalizeToDay_same_day t t' H) as Hn.
  assert (Hw : forall c, paymentWindow c t = paymentWindow c t').
  { intros c. unfold paymentWindow. now rewrite Hn. }
  split; [exact Hw |]. split.
  - intros b. unfold getPaymentWindow, getPaymentWindowIn.
    destruct (lookupCycle CARD_CYCLE b); [| reflexivity]. now rewrite Hw.
  - intros ex. unfold rankCardsByDaysToPay, rankCardsByDaysToPayIn, rankCandidatesIn.
    now rewrite Hn.
Qed.

Lemma X9_window_and_ranking_ignore_time_of_day_witness :
  Day jan10 = Day (ymd 2026 1 10) /\
  rankCardsByDaysToPay jan10 [] = rankCardsByDaysToPay (ymd 2026 1 10) [].
Proof.
  split; [reflexivity |].
  apply (X9_window_and_ranking_ignore_time_of_day jan10 (ymd 2026 1 10)).
  reflexivity.
Defined.

(** ** The ranking *)

Section SortAndFilter.

Context {A : Type} (key : A -> Z) (p : A -> bool).

Lemma insertBy_front x l :
  Forall (fun z => key z <= key x) l ->
  insertBy (fun a b => key b - key a) x l = x :: l.
Proof.
  destruct 1 as [| y l Hy _]; [reflexivity |].
  cbn [insertBy]. now rewrite (proj2 (Z.leb_le _ _)) by lia.
Qed.

Lemma insertBy_filter_commute x l :
  StronglySorted (descending key) l ->
  List.filter p (insertBy (fun a b => key b - key a) x l)
  = if p x then insertBy (fun a b => key b - key a) x (List.filter p l)
    else List.filter p l.
Proof.
  induction 1 as [| y l Hs IH Hall].
  - cbn. now destruct (p x).
  - cbn [insertBy]. destruct (Z.leb_spec (key y - key x) 0) as [Hle | Hgt].
    + cbn [List.filter]. destruct (p x); [| reflexivity].
      symmetry. apply insertBy_front.
      assert (Hall' : Forall (fun z => key z <= key x) (y :: l)).
      { constructor; [lia |]. eapply List.Forall_impl; [| exact Hall].
        unfold descending. intros z Hz. lia. }
      apply List.Forall_forall. intros z Hz.
      change (List.filter p (y :: l)) with
        (if p y then y :: List.filter p l else List.filter p l) in Hz.
      apply (proj1 (List.Forall_forall _ _) Hall').
      destruct (p y); [destruct Hz as [<- | Hz]; [now left | right] | right];
        now apply filter_In in Hz.
    + cbn [List.filter]. rewrite IH.
      destruct (p y), (p x); try reflexivity.
      cbn [insertBy]. now rewrite (proj2 (Z.leb_gt _ _)) by lia.
Qed.

Lemma sortBy_filter_commute l :
  List.filter p (sortBy (fun a b => key b - key a) l)
  = sortBy (fun a b => key b - key a) (List.filter p l).
Proof.
  induction l as [| x l IH]; [reflexivity |].
  cbn [sortBy fold_right]. rewrite insertBy_filter_commute by apply sortBy_sorted.
  unfold sortBy in IH. rewrite IH. cbn [List.filter].
  now destruct (p x).
Qed.

End SortAndFilter.

Lemma notExcluded_nil bank : notExcluded (list_to_set []) bank = true.
Proof. apply (notExcluded_spec [] bank). intros []. Qed.

Lemma filter_all_true {X : Type} (q : X -> bool) (l : list X) :
  (forall x, q x = true) -> List.filter q l = l.
Proof.
  intros H. induction l as [| x l IH]; [reflexivity |].
  cbn. now rewrite H, IH.
Qed.

Lemma rankCandidatesIn_excluded catalog today ex :
  rankCandidatesIn catalog today ex
  = List.filter (fun x => notExcluded (list_to_set ex) (rankedBank x))
                (rankCandidatesIn catalog today []).
Proof.
  unfold rankCandidatesIn.
  rewrite (filter_all_true (notExcluded (list_to_set [])) _ notExcluded_nil).
  generalize (map fst catalog). intros keys.
  induction keys as [| k keys IH]; [reflexivity |].
  cbn [List.filter map].
  destruct (getPaymentWindowIn catalog k (normalizeToDay today)) as [w |] eqn:E.
  - cbn [filterBoolean List.filter rankedBank].
    destruct (notExcluded (list_to_set ex) k) eqn:Ek.
    + cbn [map filterBoolean]. rewrite E. cbn [filterBoolean]. now rewrite IH.
    + exact IH.
  - cbn [filterBoolean].
    destruct (notExcluded (list_to_set ex) k); [| exact IH].
    cbn [map filterBoolean]. rewrite E. exact IH.
Qed.

(** X11. The ranking with excluded banks is the full ranking with those
    banks removed: excluding a card never changes the order of the
    others. *)
Theorem X11_ranking_with_exclusions_is_filtered_full_ranking :
  forall (today : Z) (excludeBanks : list string),
    rankCardsByDaysToPay today excludeBanks
    = List.filter (fun x => notExcluded (list_to_set excludeBanks) (rankedBank x))
                  (rankCardsByDaysToPay today []).
Proof.
  intros today ex. unfold rankCardsByDaysToPay, rankCardsByDaysToPayIn.
  rewrite (sortBy_filter_commute rankedDays).
  now rewrite <- rankCandidatesIn_excluded.
Qed.

Lemma StronglySorted_head_max {X : Type} (key : X -> Z) (l : list X) :
  StronglySorted (descending key) l ->
  match head l with
  | Some best => Forall (fun x => key x <= key best) l
  | None => l = []
  end.
Proof.
  destruct 1 as [| y l _ Hall]; [reflexivity |].
  cbn [head]. constructor; [lia | exact Hall].
Qed.

(** X12. The first element of a ranking, which confirm_purchase takes as
    the best alternative, has the largest daysToPay of the whole ranking;
    there is no first element only when the ranking is empty. *)
Theorem X12_best_alternative_is_the_maximum :
  forall (today : Z) (excludeBanks : list string),
    match head (rankCardsByDaysToPay today excludeBanks) with
    | Some best =>
        Forall (fun x => rankedDays x <= rankedDays best)
               (rankCardsByDaysToPay today excludeBanks)
    | None => rankCardsByDaysToPay today excludeBanks = []
    end.
Proof.
  intros today ex. apply (StronglySorted_head_max rankedDays).
  apply sortBy_sorted.
Qed.

Lemma rankCardsByDaysToPay_banks today ex :
  Permutation (map rankedBank (rankCardsByDaysToPay today ex))
              (List.filter (notExcluded (list_to_set ex)) (map fst CARD_CYCLE)).
Proof.
  unfold rankCardsByDaysToPay, rankCardsByDaysToPayIn.
  rewrite <- rankCandidatesIn_banks with (today := today).
  apply Permutation_map, sortBy_Permutation.
Qed.

(** X13. The /dias command never answers that no card is configured: for
    every date it lists the six cards of the catalog, each once, the card
    with most days to pay first. *)
Theorem X13_dias_lists_the_six_cards :
  forall today : Z,
    dias today = DiasRanking (rankCardsByDaysToPay today []) /\
    length (rankCardsByDaysToPay today []) = 6%nat /\
    Permutation (map rankedBank (rankCardsByDaysToPay today []))
                (map fst CARD_CYCLE) /\
    StronglySorted (descending rankedDays) (rankCardsByDaysToPay today []).
Proof.
  intros today.
  pose proof (rankCardsByDaysToPay_banks today []) as Hp.
  rewrite (filter_all_true _ _ notExcluded_nil) in Hp.
  assert (Hlen : length (rankCardsByDaysToPay today []) = 6%nat).
  { rewrite <- (length_map rankedBank). now rewrite (Permutation_length Hp). }
  split.
  - unfold dias. cbv zeta. now rewrite Hlen.
  - split; [exact Hlen |]. split; [exact Hp |]. apply sortBy_sorted.
Qed.

(** ** The callback handlers as a state machine *)

Lemma saveAndDelete_outcome e key w a pending :
  pendingPurchases w !! key = Some pending ->
  a <> CancelAction ->
  dateNow e - createdAt pending <= PENDING_TTL_MS ->
  HandlerOutcome e key w a (saveAndDelete e key (data pending) w).
Proof.
  intros Hl Ha Hlive.
  destruct (savePurchaseToSheets e (data pending) w) as [w' |] eqn:Hs.
  - assert (Hok : sheetsReady e = true /\ appendOk e = true).
    { unfold savePurchaseToSheets in Hs.
      destruct (sheetsReady e), (appendOk e); try discriminate Hs; now split. }
    destruct Hok as [Hr Hap]. rewrite (saveAndDelete_ok e key _ w Hr Hap).
    now apply (OutcomeCommitted e key w a pending).
  - rewrite (saveAndDelete_fail e key _ w Hs).
    now apply (OutcomeSaveError e key w a pending).
Qed.

Lemma dispatch_outcome a e key w :
  HandlerOutcome e key w a (dispatch a e key w).
Proof.
  destruct a; cbn [dispatch].
  - destruct (pendingPurchases w !! key) as [pending |] eqn:Hl.
    + destruct (Z_lt_le_dec PENDING_TTL_MS (dateNow e - createdAt pending))
        as [Hexp | Hlive].
      * rewrite (confirm_purchase_expired e key w pending Hl Hexp).
        now apply (OutcomeExpired e key w Confirm pending).
      * rewrite (confirm_purchase_live e key w pending Hl Hlive).
        destruct (bool_decide (bank (data pending) ∈ SKIP_CUT_VALIDATION)) eqn:Hskip;
          [now apply saveAndDelete_outcome |].
        apply bool_decide_eq_false in Hskip.
        destruct (getPaymentWindow (bank (data pending)) (todayChosen e))
          as [chosen |] eqn:Hwin; [| now apply saveAndDelete_outcome].
        cbv zeta.
        destruct (shouldWarn _ chosen pending) eqn:Hw;
          [| now apply saveAndDelete_outcome].
        apply OutcomeWarned; try assumption.
        destruct (stage pending) eqn:Hst; [reflexivity |].
        now rewrite (shouldWarn_WARNED _ _ _ Hst) in Hw.
    + unfold confirm_purchase. rewrite Hl. now apply OutcomeNothingPending.
  - destruct (pendingPurchases w !! key) as [pending |] eqn:Hl.
    + destruct (Z_lt_le_dec PENDING_TTL_MS (dateNow e - createdAt pending))
        as [Hexp | Hlive].
      * rewrite (confirm_purchase_ok_expired e key w pending Hl Hexp).
        now apply (OutcomeExpired e key w ConfirmAnyway pending).
      * rewrite (confirm_purchase_ok_live e key w pending Hl Hlive).
        now apply saveAndDelete_outcome.
    + unfold confirm_purchase_ok. rewrite Hl. now apply OutcomeNothingPending.
  - apply OutcomeCancelled.
Qed.


(** X15. A handler run for one key never touches the pending purchase of
    another key. *)
Theorem X15_other_keys_are_untouched :
  forall (a : Action) (e : Env) (key key' : string) (w : World),
    key' <> key ->
    pendingPurchases (fst (dispatch a e key w)) !! key'
    = pendingPurchases w !! key'.
Proof.
  intros a e key key' w Hne.
  destruct (dispatch_outcome a e key w); cbn [fst];
    unfold deletePending, committed, setPending; cbn [pendingPurchases];
    try reflexivity;
    solve [ apply lookup_delete_ne; congruence
          | apply lookup_insert_ne; congruence ].
Qed.

Lemma X15_other_keys_are_untouched_witness :
  pendingPurchases
    (fst (dispatch CancelAction (sampleEnv 3000 true) "100:8"
                   (sampleWorld "RAPPICARD"))) !! sampleKey
  = pendingPurchases (sampleWorld "RAPPICARD") !! sampleKey.
Proof.
  apply (X15_other_keys_are_untouched CancelAction (sampleEnv 3000 true)
           "100:8" sampleKey (sampleWorld "RAPPICARD")).
  discriminate.
Defined.

(** X16. The spreadsheet only grows, by at most one row per run: a row is
    appended exactly when the user is told that the purchase was saved,
    it is the row of the purchase that was pending and alive under the
    key, and that entry is removed with it. *)
Theorem X16_one_row_per_saved_purchase :
  forall (a : Action) (e : Env) (key : string) (w : World),
    (~ In (editMessageText TextSaved) (snd (dispatch a e key w)) /\
     sheet (fst (dispatch a e key w)) = sheet w) \/
    (exists pending,
        pendingPurchases w !! key = Some pending /\
        dateNow e - createdAt pending <= PENDING_TTL_MS /\
        a <> CancelAction /\
        In (editMessageText TextSaved) (snd (dispatch a e key w)) /\
        sheet (fst (dispatch a e key w)) = sheet w ++ [sheetRow (data pending)] /\
        pendingPurchases (fst (dispatch a e key w)) !! key = None).
Proof.
  intros a e key w.
  destruct (dispatch_outcome a e key w) as
    [a' Hl Ha | | a' p Hl Ha Hexp | a' p Hl Ha Hlive Hr Hap | a' p Hl Ha Hlive Hs
     | p chosen Hl Hlive Hst Hskip Hwin Hw];
    try (left; split; [not_in_trace | reflexivity]).
  right. exists p. repeat split; try assumption.
  - now left.
  - cbn. apply lookup_delete_eq.
Qed.

(** X17. Handlers never create an entry and never alter the purchase or
    the creation time of one: after a run the entry under the key is
    either gone or the same as before, except that its stage may have
    moved from PREVIEW to WARNED (never back). *)
Theorem X17_entries_change_only_from_preview_to_warned :
  forall (a : Action) (e : Env) (key : string) (w : World),
    match pendingPurchases w !! key,
          pendingPurchases (fst (dispatch a e key w)) !! key with
    | _, None => True
    | None, Some _ => False
    | Some p, Some p' =>
        data p' = data p /\ createdAt p' = createdAt p /\
        (stage p' = stage p \/ (stage p = PREVIEW /\ stage p' = WARNED))
    end.
Proof.
  intros a e key w.
  destruct (dispatch_outcome a e key w) as
    [a' Hl Ha | | a' p Hl Ha Hexp | a' p Hl Ha Hlive Hr Hap | a' p Hl Ha Hlive Hs
     | p chosen Hl Hlive Hst Hskip Hwin Hw];
    cbn [fst]; unfold deletePending, committed, setPending; cbn [pendingPurchases];
    rewrite ?lookup_delete_eq, ?lookup_insert_eq, ?Hl;
    try exact I.
  - destruct (pendingPurchases w !! key); exact I.
  - repeat split; now left.
  - cbn. repeat split. right. now split.
Qed.

Lemma shouldWarn_true bestAlt chosen pending :
  shouldWarn bestAlt chosen pending = true ->
  exists best, bestAlt = Some best /\
               daysToPay chosen + 5 <= rankedDays best.
Proof.
  unfold shouldWarn, IMPROVEMENT_THRESHOLD_DAYS.
  destruct bestAlt as [best |]; [| discriminate].
  intros H. apply andb_true_iff in H. destruct H as [H _].
  exists best. split; [reflexivity | now apply Z.leb_le].
Qed.

Lemma excluded_bank_not_ranked today b :
  ~ In b (map rankedBank (rankCardsByDaysToPay today [b])).
Proof.
  intros Hin.
  apply (Permutation_in _ (rankCardsByDaysToPay_banks today [b])) in Hin.
  apply filter_In in Hin. destruct Hin as [_ Hn].
  apply notExcluded_spec in Hn. apply Hn. now left.
Qed.

Lemma In_map_firstn {X Y : Type} (f : X -> Y) n (l : list X) y :
  In y (map f (firstn n l)) -> In y (map f l).
Proof.
  intros H. apply in_map_iff in H. destruct H as (x & <- & Hx).
  apply in_map. revert l Hx. induction n as [| n IH]; intros [| z l] Hx;
    cbn in Hx; try contradiction.
  destruct Hx as [-> | Hx]; [now left | right; now apply IH].
Qed.

(** X18. A recommendation is shown only by confirm_purchase, only for an
    entry still in PREVIEW whose card is configured and not exempt; it
    lists the first one to three cards of the ranking without the chosen
    card, the chosen card is never among them, the first listed card
    offers at least five days more than the chosen one, and the entry is
    left in stage WARNED. *)
Theorem X18_recommendation_lists_better_alternatives :
  forall (a : Action) (e : Env) (key : string) (w : World)
         (b : string) (chosen : PaymentWindow) (top3 : list RankedCard),
    In (editMessageText (TextRecommendation b chosen top3))
       (snd (dispatch a e key w)) ->
    a = Confirm /\
    (exists pending,
        pendingPurchases w !! key = Some pending /\
        stage pending = PREVIEW /\
        b = bank (data pending) /\
        pendingPurchases (fst (dispatch a e key w)) !! key
        = Some {| data := data pending; createdAt := createdAt pending;
                  stage := WARNED |}) /\
    (b ∉ SKIP_CUT_VALIDATION) /\
    getPaymentWindow b (todayChosen e) = Some chosen /\
    top3 = firstn 3 (rankCardsByDaysToPay (todayRanking e) [b]) /\
    (1 <= length top3 <= 3)%nat /\
    ~ In b (map rankedBank top3) /\
    (exists best, head top3 = Some best /\
                  daysToPay chosen + 5 <= rankedDays best).
Proof.
  intros a e key w b chosen top3 Hin.
  destruct (dispatch_outcome a e key w) as
    [a' Hl Ha | | a' p Hl Ha Hexp | a' p Hl Ha Hlive Hr Hap | a' p Hl Ha Hlive Hs
     | p chosen' Hl Hlive Hst Hskip Hwin Hw];
    cbn [snd fst] in *;
    try (exfalso; repeat (destruct Hin as [Hin | Hin]; [discriminate Hin |]);
         exact Hin).
  destruct Hin as [Hin | [Hin | []]]; [| discriminate Hin].
  injection Hin as Hb Hc Ht. subst chosen'.
  assert (Eb : b = bank (data p)) by (symmetry; exact Hb). clear Hb.
  rewrite <- Eb in *.
  destruct (shouldWarn_true _ _ _ Hw) as (best & Hbest & Hdays).
  set (ranking := rankCardsByDaysToPay (todayRanking e) [b]) in *.
  split; [reflexivity |]. split.
  { exists p. repeat split; try assumption.
    unfold setPending. cbn [pendingPurchases]. apply lookup_insert_eq. }
  split; [exact Hskip |]. split; [exact Hwin |].
  split; [symmetry; exact Ht |].
  destruct ranking as [| r0 rest] eqn:Er; [discriminate Hbest |].
  cbn [head] in Hbest. injection Hbest as ->.
  rewrite <- Ht. split.
  { rewrite List.length_firstn. cbn [length]. lia. }
  split.
  { intros Hb. apply In_map_firstn in Hb. rewrite <- Er in Hb.
    exact (excluded_bank_not_ranked _ _ Hb). }
  exists best. split; [reflexivity | exact Hdays].
Qed.

Lemma X18_recommendation_lists_better_alternatives_witness :
  (1 <= length (firstn 3 sampleRanking) <= 3)%nat /\
  ~ In "MERCADOPAGO"%string (map rankedBank (firstn 3 sampleRanking)).
Proof.
  assert (Hin : In (editMessageText
                      (TextRecommendation "MERCADOPAGO" sampleChosen
                                          (firstn 3 sampleRanking)))
                   (snd (dispatch Confirm (sampleEnv 2000 true) sampleKey
                                  (sampleWorld "MERCADOPAGO"))))
    by (vm_compute; left; reflexivity).
  destruct (X18_recommendation_lists_better_alternatives
              Confirm (sampleEnv 2000 true) sampleKey (sampleWorld "MERCADOPAGO")
              "MERCADOPAGO" sampleChosen (firstn 3 sampleRanking) Hin)
    as (_ & _ & _ & _ & _ & Hlen & Hnot & _).
  split; assumption.
Defined.

Lemma confirm_purchase_warned e key w pending :
  pendingPurchases w !! key = Some pending ->
  dateNow e - createdAt pending <= PENDING_TTL_MS ->
  stage pending = WARNED ->
  confirm_purchase e key w = saveAndDelete e key (data pending) w.
Proof.
  intros Hl Hlive Hst. rewrite (confirm_purchase_live e key w pending Hl Hlive).
  destruct (bool_decide _); [reflexivity |].
  destruct (getPaymentWindow _ _); [| reflexivity].
  cbv zeta. now rewrite (shouldWarn_WARNED _ _ _ Hst).
Qed.

Lemma dispatch_nothing_pending a e key w :
  pendingPurchases w !! key = None ->
  fst (dispatch a e key w) = w /\
  ~ In (editMessageText TextSaved) (snd (dispatch a e key w)).
Proof.
  intros Hl. destruct a; cbn [dispatch].
  - unfold confirm_purchase. rewrite Hl. split; [reflexivity | not_in_trace].
  - unfold confirm_purchase_ok. rewrite Hl. split; [reflexivity | not_in_trace].
  - unfold cancel_purchase. rewrite (deletePending_absent key w Hl).
    split; [reflexivity | not_in_trace].
Qed.

Lemma committed_lookup key purchase w :
  pendingPurchases (committed key purchase w) !! key = None.
Proof. apply lookup_delete_eq. Qed.

Lemma committed_setPending key purchase p w :
  committed key purchase (setPending key p w) = committed key purchase w.
Proof.
  unfold committed, setPending. cbn [pendingPurchases sheet].
  now rewrite delete_insert_eq.
Qed.

(** X19. Two confirms are always enough: on a live entry, with the
    spreadsheet reachable, a confirm followed by a second confirm leaves
    exactly one new row, the one of the purchase, and no entry under the
    key, whether or not the first confirm showed the recommendation. *)
Theorem X19_two_confirms_commit_exactly_once :
  forall (e1 e2 : Env) (key : string) (w : World) (pending : Pending),
    pendingPurchases w !! key = Some pending ->
    dateNow e1 - createdAt pending <= PENDING_TTL_MS ->
    dateNow e2 - createdAt pending <= PENDING_TTL_MS ->
    sheetsReady e1 = true -> appendOk e1 = true ->
    sheetsReady e2 = true -> appendOk e2 = true ->
    fst (confirm_purchase e2 key (fst (confirm_purchase e1 key w)))
    = committed key (data pending) w.
Proof.
  intros e1 e2 key w p Hl Hlive1 Hlive2 Hr1 Ha1 Hr2 Ha2.
  assert (Hdone : fst (confirm_purchase e2 key (committed key (data p) w))
                  = committed key (data p) w).
  { apply (dispatch_nothing_pending Confirm). apply committed_lookup. }
  rewrite (confirm_purchase_live e1 key w p Hl Hlive1).
  rewrite (saveAndDelete_ok e1 key (data p) w Hr1 Ha1).
  destruct (bool_decide _); [exact Hdone |].
  destruct (getPaymentWindow _ _) as [chosen |]; [| exact Hdone].
  cbv zeta. destruct (shouldWarn _ chosen p); [| exact Hdone].
  cbn [fst].
  set (p' := {| data := data p; createdAt := createdAt p; stage := WARNED |}).
  assert (Hl' : pendingPurchases (setPending key p' w) !! key = Some p')
    by apply lookup_insert_eq.
  rewrite (confirm_purchase_warned e2 key _ p' Hl' Hlive2 eq_refl).
  rewrite (saveAndDelete_ok e2 key _ _ Hr2 Ha2). cbn [fst data p'].
  apply committed_setPending.
Qed.

Lemma X19_two_confirms_commit_exactly_once_witness :
  fst (confirm_purchase (sampleEnv 3000 true) sampleKey
         (fst (confirm_purchase (sampleEnv 2000 true) sampleKey
                                (sampleWorld "MERCADOPAGO"))))
  = committed sampleKey (samplePurchase "MERCADOPAGO") (sampleWorld "MERCADOPAGO").
Proof.
  apply (X19_two_confirms_commit_exactly_once
           (sampleEnv 2000 true) (sampleEnv 3000 true) sampleKey
           (sampleWorld "MERCADOPAGO")
           {| data := samplePurchase "MERCADOPAGO"; createdAt := 1000;
              stage := PREVIEW |});
    solve [reflexivity | vm_compute; discriminate].
Defined.

(** X20. After a run that saved the purchase, no further action on the
    key writes to the spreadsheet or changes the store: the purchase
    cannot be saved twice by pressing a button again. *)
Theorem X20_saved_purchase_is_not_saved_again :
  forall (a a' : Action) (e e' : Env) (key : string) (w : World),
    In (editMessageText TextSaved) (snd (dispatch a e key w)) ->
    fst (dispatch a' e' key (fst (dispatch a e key w)))
    = fst (dispatch a e key w) /\
    ~ In (editMessageText TextSaved)
         (snd (dispatch a' e' key (fst (dispatch a e key w)))).
Proof.
  intros a a' e e' key w Hin.
  apply dispatch_nothing_pending.
  destruct (dispatch_outcome a e key w) as
    [a0 Hl Ha | | a0 p Hl Ha Hexp | a0 p Hl Ha Hlive Hr Hap | a0 p Hl Ha Hlive Hs
     | p chosen Hl Hlive Hst Hskip Hwin Hw];
    cbn [snd fst] in *;
    try (exfalso; repeat (destruct Hin as [Hin | Hin]; [discriminate Hin |]);
         exact Hin).
  apply committed_lookup.
Qed.

Lemma X20_saved_purchase_is_not_saved_again_witness :
  fst (dispatch Confirm (sampleEnv 4000 true) sampleKey
         (fst (dispatch ConfirmAnyway (sampleEnv 3000 true) sampleKey
                        (sampleWorld "RAPPICARD"))))
  = fst (dispatch ConfirmAnyway (sampleEnv 3000 true) sampleKey
                  (sampleWorld "RAPPICARD")).
Proof.
  apply (X20_saved_purchase_is_not_saved_again
           ConfirmAnyway Confirm (sampleEnv 3000 true) (sampleEnv 4000 true)
           sampleKey (sampleWorld "RAPPICARD")).
  vm_compute. left. reflexivity.
Defined.

(** ** The periodic sweep *)

Lemma world_eq (w w' : World) :
  (forall k, pendingPurchases w !! k = pendingPurchases w' !! k) ->
  sheet w = sheet w' -> w = w'.
Proof.
  destruct w as [m s], w' as [m' s']. cbn. intros Hm ->.
  f_equal. now apply map_eq.
Qed.

Lemma sweepExpired_sheet now w : sheet (sweepExpired now w) = sheet w.
Proof. reflexivity. Qed.

(** X21. The sweep removes exactly the entries older than the TTL at the
    time it runs: every other entry is kept as it is, and the spreadsheet
    is not touched. *)
Theorem X21_sweep_removes_exactly_the_expired_entries :
  forall (now : Z) (w : World) (key : string) (p : Pending),
    (pendingPurchases (sweepExpired now w) !! key = Some p <->
     pendingPurchases w !! key = Some p /\ now - createdAt p <= PENDING_TTL_MS) /\
    sheet (sweepExpired now w) = sheet w.
Proof.
  intros now w key p. split; [| reflexivity].
  rewrite sweepExpired_lookup.
  destruct (pendingPurchases w !! key) as [q |];
    [| split; [discriminate | intros [H _]; discriminate H]].
  destruct (Z.ltb_spec PENDING_TTL_MS (now - createdAt q)) as [Hexp | Hlive].
  - split; [discriminate |]. intros [[= ->] H]. lia.
  - split; [intros [= ->]; now split | now intros [H _]].
Qed.

(** X22. Sweeping twice is sweeping once at the later time; in
    particular the sweep is idempotent. *)
Theorem X22_sweeps_compose :
  forall (now now' : Z) (w : World),
    now <= now' ->
    sweepExpired now' (sweepExpired now w) = sweepExpired now' w.
Proof.
  intros now now' w Hle. apply world_eq; [| reflexivity].
  intros k. rewrite !sweepExpired_lookup.
  destruct (pendingPurchases w !! k) as [p |]; [| reflexivity].
  destruct (Z.ltb_spec PENDING_TTL_MS (now - createdAt p)) as [Hexp | Hlive];
    [| reflexivity].
  now rewrite (proj2 (Z.ltb_lt _ _)) by lia.
Qed.

Lemma X22_sweeps_compose_witness :
  sweepExpired 500000 (sweepExpired 500000 (sampleWorld "RAPPICARD"))
  = sweepExpired 500000 (sampleWorld "RAPPICARD").
Proof. apply (X22_sweeps_compose 500000 500000 (sampleWorld "RAPPICARD")). lia. Defined.

Lemma sweepExpired_deletePending now key w :
  sweepExpired now (deletePending key w) = deletePending key (sweepExpired now w).
Proof.
  apply world_eq; [| reflexivity]. intros k.
  rewrite sweepExpired_lookup. unfold deletePending. cbn [pendingPurchases].
  destruct (decide (key = k)) as [-> | Hne].
  - now rewrite !lookup_delete_eq.
  - rewrite !lookup_delete_ne by exact Hne. now rewrite sweepExpired_lookup.
Qed.

Lemma sweepExpired_setPending now key p w :
  now - createdAt p <= PENDING_TTL_MS ->
  sweepExpired now (setPending key p w) = setPending key p (sweepExpired now w).
Proof.
  intros Hlive. apply world_eq; [| reflexivity]. intros k.
  rewrite sweepExpired_lookup. unfold setPending. cbn [pendingPurchases].
  destruct (decide (key = k)) as [-> | Hne].
  - rewrite !lookup_insert_eq. now rewrite (proj2 (Z.ltb_ge _ _) Hlive).
  - rewrite !lookup_insert_ne by exact Hne. now rewrite sweepExpired_lookup.
Qed.

Lemma sweepExpired_saveAndDelete now e key purchase w :
  sweepExpired now (fst (saveAndDelete e key purchase w))
  = fst (saveAndDelete e key purchase (sweepExpired now w)).
Proof.
  unfold saveAndDelete, savePurchaseToSheets.
  destruct (sheetsReady e), (appendOk e); cbn [negb fst]; try reflexivity.
  apply world_eq; [| reflexivity]. intros k.
  rewrite sweepExpired_lookup. unfold deletePending. cbn [pendingPurchases].
  destruct (decide (key = k)) as [-> | Hne].
  - now rewrite !lookup_delete_eq.
  - rewrite !lookup_delete_ne by exact Hne. now rewrite sweepExpired_lookup.
Qed.

Lemma sweepExpired_expired_key now key w p :
  pendingPurchases w !! key = Some p ->
  PENDING_TTL_MS < now - createdAt p ->
  sweepExpired now (deletePending key w) = sweepExpired now w.
Proof.
  intros Hl Hexp. apply world_eq; [| reflexivity]. intros k.
  rewrite !sweepExpired_lookup. unfold deletePending. cbn [pendingPurchases].
  destruct (decide (key = k)) as [<- | Hne].
  - rewrite lookup_delete_eq, Hl. now rewrite (proj2 (Z.ltb_lt _ _) Hexp).
  - now rewrite lookup_delete_ne by exact Hne.
Qed.

Lemma sweepExpired_commutes a e key w :
  sweepExpired (dateNow e) (fst (dispatch a e key w))
  = fst (dispatch a e key (sweepExpired (dateNow e) w)).
Proof.
  pose proof (sweepExpired_lookup (dateNow e) w key) as Hsw.
  destruct a; cbn [dispatch].
  - destruct (pendingPurchases w !! key) as [p |] eqn:Hl.
    + destruct (Z.ltb_spec PENDING_TTL_MS (dateNow e - createdAt p))
        as [Hexp | Hlive].
      * rewrite (confirm_purchase_expired e key w p Hl Hexp).
        unfold confirm_purchase at 1. rewrite Hsw. cbn [fst].
        exact (sweepExpired_expired_key _ _ _ _ Hl Hexp).
      * rewrite (confirm_purchase_live e key w p Hl Hlive).
        rewrite (confirm_purchase_live e key _ p Hsw Hlive).
        destruct (bool_decide _); [apply sweepExpired_saveAndDelete |].
        destruct (getPaymentWindow _ _); [| apply sweepExpired_saveAndDelete].
        cbv zeta. destruct (shouldWarn _ _ p);
          [| apply sweepExpired_saveAndDelete].
        cbn [fst]. now apply sweepExpired_setPending.
    + unfold confirm_purchase. now rewrite Hl, Hsw.
  - destruct (pendingPurchases w !! key) as [p |] eqn:Hl.
    + destruct (Z.ltb_spec PENDING_TTL_MS (dateNow e - createdAt p))
        as [Hexp | Hlive].
      * rewrite (confirm_purchase_ok_expired e key w p Hl Hexp).
        unfold confirm_purchase_ok at 1. rewrite Hsw. cbn [fst].
        exact (sweepExpired_expired_key _ _ _ _ Hl Hexp).
      * rewrite (confirm_purchase_ok_live e key w p Hl Hlive).
        rewrite (confirm_purchase_ok_live e key _ p Hsw Hlive).
        apply sweepExpired_saveAndDelete.
    + unfold confirm_purchase_ok. now rewrite Hl, Hsw.
  - unfold cancel_purchase. cbn [fst]. apply sweepExpired_deletePending.
Qed.

(** X23. The sweep is only a way to free memory: whether it runs just
    before or just after an action (at the same clock reading), the store
    and the spreadsheet end up the same; and an action that runs right
    after the sweep never has to report an expiry. *)
Theorem X23_sweep_does_not_change_what_an_action_does :
  forall (a : Action) (e : Env) (key : string) (w : World),
    sweepExpired (dateNow e) (fst (dispatch a e key w))
    = fst (dispatch a e key (sweepExpired (dateNow e) w)) /\
    ~ In (editMessageText TextExpired)
         (snd (dispatch a e key (sweepExpired (dateNow e) w))).
Proof.
  intros a e key w. split; [apply sweepExpired_commutes |].
  destruct (dispatch_outcome a e key (sweepExpired (dateNow e) w)) as
    [a0 Hl Ha | | a0 p Hl Ha Hexp | a0 p Hl Ha Hlive Hr Hap | a0 p Hl Ha Hlive Hs
     | p chosen Hl Hlive Hst Hskip Hwin Hw];
    try not_in_trace.
  exfalso. rewrite sweepExpired_lookup in Hl.
  destruct (pendingPurchases w !! key) as [q |]; [| discriminate Hl].
  destruct (Z.ltb_spec PENDING_TTL_MS (dateNow e - createdAt q)) as [? | Hlive];
    [discriminate Hl |].
  injection Hl as ->. lia.
Qed.

(** ** Registering a purchase *)

(** X24. After /compra has stored a purchase, the entry under the key is
    that purchase in stage PREVIEW with the current time as creation
    time; the entries of other keys and the spreadsheet are unchanged;
    and whatever was pending under the key before (a warned entry
    included) leaves no trace. *)
Theorem X24_new_purchase_supersedes_the_pending_one :
  forall (now : Z) (key : string) (purchaseData : PurchaseData) (w : World),
    pendingPurchases (registerPending now key purchaseData w) !! key
    = Some {| data := purchaseData; createdAt := now; stage := PREVIEW |} /\
    (forall k, k <> key ->
       pendingPurchases (registerPending now key purchaseData w) !! k
       = pendingPurchases w !! k) /\
    sheet (registerPending now key purchaseData w) = sheet w /\
    registerPending now key purchaseData w
    = registerPending now key purchaseData (deletePending key w).
Proof.
  intros now key d w. unfold registerPending, setPending, deletePending.
  cbn [pendingPurchases sheet].
  split; [apply lookup_insert_eq |]. split.
  - intros k Hk. apply lookup_insert_ne. congruence.
  - split; [reflexivity |]. now rewrite insert_delete_eq.
Qed.

Lemma committed_registerPending now key purchaseData w :
  committed key purchaseData (registerPending now key purchaseData w)
  = committed key purchaseData w.
Proof. apply committed_setPending. Qed.

(** X25. A purchase that is registered and then cancelled leaves the store
    as if the key had been deleted and the spreadsheet as it was; a
    purchase that is registered and then confirmed with OK within the TTL,
    with the spreadsheet reachable, adds exactly its own row. *)
Theorem X25_register_then_cancel_or_confirm :
  forall (e : Env) (now : Z) (key : string) (purchaseData : PurchaseData)
         (w : World),
    dateNow e - now <= PENDING_TTL_MS ->
    sheetsReady e = true -> appendOk e = true ->
    fst (cancel_purchase key (registerPending now key purchaseData w))
    = deletePending key w /\
    confirm_purchase_ok e key (registerPending now key purchaseData w)
    = (committed key purchaseData w,
       [editMessageText TextSaved; answerCbQuery None]).
Proof.
  intros e now key d w Hlive Hr Ha. split.
  - unfold cancel_purchase, registerPending, setPending, deletePending.
    cbn [fst pendingPurchases sheet]. now rewrite delete_insert_eq.
  - assert (Hl : pendingPurchases (registerPending now key d w) !! key
                 = Some {| data := d; createdAt := now; stage := PREVIEW |})
      by apply lookup_insert_eq.
    rewrite (confirm_purchase_ok_live e key _ _ Hl Hlive).
    rewrite (saveAndDelete_ok e key _ _ Hr Ha). cbn [data].
    now rewrite committed_registerPending.
Qed.

Lemma X25_register_then_cancel_or_confirm_witness :
  fst (cancel_purchase sampleKey
         (registerPending 1000 sampleKey (samplePurchase "NU") warnedWorld))
  = deletePending sampleKey warnedWorld /\
  confirm_purchase_ok (sampleEnv 3000 true) sampleKey
    (registerPending 1000 sampleKey (samplePurchase "NU") warnedWorld)
  = (committed sampleKey (samplePurchase "NU") warnedWorld,
     [editMessageText TextSaved; answerCbQuery None]).
Proof.
  apply (X25_register_then_cancel_or_confirm
           (sampleEnv 3000 true) 1000 sampleKey (samplePurchase "NU") warnedWorld);
    solve [reflexivity | vm_compute; discriminate].
Defined.

(** ** The text of a date *)

Lemma forallb_range (f : Z -> bool) (lo : Z) (n : nat) :
  forallb f (map (fun i => lo + Z.of_nat i) (seq 0 n)) = true ->
  forall z, lo <= z < lo + Z.of_nat n -> f z = true.
Proof.
  intros H z Hz. rewrite forallb_forall in H. apply H.
  apply in_map_iff. exists (Z.to_nat (z - lo)).
  split; [lia | apply in_seq; lia].
Qed.

Lemma twoDigits_length n :
  1 <= n <= 31 -> String.length (padStart 2 "0" (StringOfInteger n)) = 2%nat.
Proof.
  intros Hn. apply Nat.eqb_eq.
  apply (forallb_range
           (fun z => Nat.eqb (String.length (padStart 2 "0" (StringOfInteger z))) 2)
           1 31); [vm_compute; reflexivity | lia].
Qed.

Lemma twoDigits_inj n n' :
  1 <= n <= 31 -> 1 <= n' <= 31 ->
  padStart 2 "0" (StringOfInteger n) = padStart 2 "0" (StringOfInteger n') ->
  n = n'.
Proof.
  intros Hn Hn' E.
  pose proof (forallb_range
                (fun a => forallb
                            (fun b => implb
                                        (String.eqb
                                           (padStart 2 "0" (StringOfInteger a))
                                           (padStart 2 "0" (StringOfInteger b)))
                                        (a =? b))
                            (map (fun i => 1 + Z.of_nat i) (seq 0 31)))
                1 31) as H.
  specialize (H ltac:(vm_compute; reflexivity) n ltac:(lia)).
  pose proof (forallb_range _ 1 31 H n' ltac:(lia)) as H'. cbv beta in H'.
  rewrite (proj2 (String.eqb_eq _ _) E) in H'. now apply Z.eqb_eq.
Qed.

Lemma append_inj_2 (a a' r r' : string) :
  String.length a = 2%nat -> String.length a' = 2%nat ->
  (a ++ r)%string = (a' ++ r')%string -> a = a' /\ r = r'.
Proof.
  destruct a as [| c1 [| c0 [| ? ?]]]; try discriminate.
  destruct a' as [| d1 [| d0 [| ? ?]]]; try discriminate.
  intros _ _ H.
  change (String c1 (String c0 r) = String d1 (String d0 r')) in H.
  injection H as -> -> ->. now split.
Qed.

Lemma to_int_not_nil z :
  Z.to_int z <> Decimal.Pos Decimal.Nil /\ Z.to_int z <> Decimal.Neg Decimal.Nil.
Proof.
  destruct z as [| p | p]; cbn; split; try discriminate;
    intros [= H]; exact (DecimalPos.Unsigned.to_uint_nonnil p H).
Qed.

Lemma StringOfInteger_inj a b : StringOfInteger a = StringOfInteger b -> a = b.
Proof.
  unfold StringOfInteger. intros H.
  apply (f_equal NilZero.int_of_string) in H.
  destruct (to_int_not_nil a) as [Ha1 Ha2]. destruct (to_int_not_nil b) as [Hb1 Hb2].
  rewrite !NilZero.isi in H by assumption.
  injection H as H. now apply DecimalZ.to_int_inj.
Qed.

(** X26. The text DD/MM/YYYY written by formatDateDMY identifies the
    calendar day: two dates have the same text exactly when they fall on
    the same day. *)
Theorem X26_formatDateDMY_identifies_the_day :
  forall t t' : Z, formatDateDMY t = formatDateDMY t' <-> Day t = Day t'.
Proof.
  intros t t'. split.
  - unfold formatDateDMY. cbv zeta. intros H.
    pose proof (getDate_pos t). pose proof (getDate_le_31 t).
    pose proof (getDate_pos t'). pose proof (getDate_le_31 t').
    pose proof (getMonth_range t). pose proof (getMonth_range t').
    apply append_inj_2 in H; [| apply twoDigits_length; lia ..].
    destruct H as [Hd H].
    match type of H with
    | (String ?c ?x = String ?c ?y) => injection H as H
    | (_ = _) => change (String "/" (padStart 2 "0" (StringOfInteger (getMonth t + 1))
                                      ++ "/" ++ StringOfInteger (getFullYear t))
                 = String "/" (padStart 2 "0" (StringOfInteger (getMonth t' + 1))
                                      ++ "/" ++ StringOfInteger (getFullYear t')))%string
                   in H; injection H as H
    end.
    apply append_inj_2 in H; [| apply twoDigits_length; lia ..].
    destruct H as [Hm H].
    change (String "/" (StringOfInteger (getFullYear t))
            = String "/" (StringOfInteger (getFullYear t'))) in H.
    injection H as Hy.
    apply twoDigits_inj in Hd; [| lia ..].
    apply twoDigits_inj in Hm; [| lia ..].
    apply StringOfInteger_inj in Hy.
    pose proof (getDate_spec t) as E. pose proof (getDate_spec t') as E'.
    rewrite monthIndex_getters in E, E'.
    replace (getMonth t') with (getMonth t) in E' by lia.
    rewrite <- Hy, <- Hd in E'. lia.
  - intros H. destruct (getters_Day t t' H) as (Hy & Hm & Hd).
    unfold formatDateDMY. now rewrite Hy, Hm, Hd.
Qed.

Example formatDateDMY_samples :
  formatDateDMY jan10 = "10/01/2026"%string /\
  formatDateDMY (ymd 2026 12 31) = "31/12/2026"%string /\
  formatDateDMY (ymd 987 3 4) = "04/03/987"%string.
Proof. vm_compute. repeat split. Qed.

(** ** Parsing the /compra command *)

Lemma splitWhiteSpace_words l :
  forall current inRun,
    Forall (fun c => isWhiteSpace c = false) current ->
    Forall (Forall (fun c => isWhiteSpace c = false))
           (splitWhiteSpace l current inRun).
Proof.
  induction l as [| c rest IH]; intros current inRun Hcur; cbn [splitWhiteSpace].
  - constructor; [| constructor]. now apply List.Forall_rev.
  - destruct (isWhiteSpace c) eqn:Hc.
    + destruct inRun.
      * apply IH. constructor.
      * constructor; [now apply List.Forall_rev | apply IH; constructor].
    + apply IH. now constructor.
Qed.

Lemma words_are_words l :
  Forall isWord (List.filter nonEmpty (splitWhiteSpace l [] false)).
Proof.
  pose proof (splitWhiteSpace_words l [] false (Forall_nil_2 _)) as H.
  apply List.Forall_forall. intros w Hw. apply filter_In in Hw.
  destruct Hw as [Hin Hne]. split.
  - intros ->. discriminate Hne.
  - exact (proj1 (List.Forall_forall _ _) H w Hin).
Qed.

Lemma finite_positive x :
  negb (isFinite x) || leInteger x 0 = false ->
  exists q, x = Finite q /\ QArith_base.Qlt (QArith_base.inject_Z 0) q.
Proof.
  destruct x as [| neg | q]; cbn; try discriminate.
  intros H. exists q. split; [reflexivity |].
  unfold QArith_base.Qle_bool in H. apply Z.leb_gt in H.
  unfold QArith_base.Qlt. cbn in *. lia.
Qed.

Lemma integer_1_to_60 x :
  negb (isInteger x) || leInteger x 0 || gtInteger x 60 = false ->
  exists m, 1 <= m <= 60 /\
            exists q, x = Finite q /\ QArith_base.Qeq q (QArith_base.inject_Z m).
Proof.
  destruct x as [| neg | [num den]]; cbn; try discriminate.
  intros H. apply orb_false_iff in H. destruct H as [H H60].
  apply orb_false_iff in H. destruct H as [Hint H0].
  apply negb_false_iff in Hint. apply Z.eqb_eq in Hint.
  apply negb_false_iff in H60.
  unfold QArith_base.Qle_bool in *. cbn in *.
  apply Z.leb_gt in H0. apply Z.leb_le in H60.
  exists (num / Z.pos den).
  assert (E : num = Z.pos den * (num / Z.pos den)).
  { pose proof (Z.div_mod num (Z.pos den) ltac:(lia)). lia. }
  split; [nia |].
  exists {| QArith_base.Qnum := num; QArith_base.Qden := den |}.
  split; [reflexivity |]. unfold QArith_base.Qeq. cbn. lia.
Qed.

(** X27. When parseCompraCommand accepts a text (whatever the conversion
    Number does), the amount is a finite number greater than zero, the
    months are an integer from 1 to 60, the bank is a single word, and the
    description is a non-empty sequence of words joined by single
    spaces. *)
Theorem X27_accepted_command_is_well_formed :
  forall (Number : list N -> JSNumber) (text : list N) (r : ParsedCompra),
    parseCompraCommand Number text = Some r ->
    (exists q, parsedAmount r = Finite q /\
               QArith_base.Qlt (QArith_base.inject_Z 0) q) /\
    (exists m, 1 <= m <= 60 /\
               exists q, parsedMonths r = Finite q /\
                         QArith_base.Qeq q (QArith_base.inject_Z m)) /\
    isWord (parsedBank r) /\
    (exists ws, ws <> [] /\ Forall isWord ws /\
                parsedDescription r = joinWithSpace ws).
Proof.
  intros Number text r. unfold parseCompraCommand. cbv zeta.
  pose proof (words_are_words (stripCommand (trim text))) as Hwords.
  remember (List.filter nonEmpty (splitWhiteSpace (stripCommand (trim text)) [] false))
    as parts eqn:Eparts. clear Eparts.
  destruct (Nat.ltb_spec (length parts) 4) as [| Hlen]; [discriminate |].
  destruct (negb (isFinite _) || leInteger _ 0) eqn:Hamount; [discriminate |].
  destruct (negb (isInteger _) || leInteger _ 0 || gtInteger _ 60) eqn:Hmonths;
    [discriminate |].
  destruct (negb (nonEmpty _) || negb (nonEmpty _)); [discriminate |].
  intros [= <-]. cbn [parsedAmount parsedMonths parsedBank parsedDescription].
  split; [now apply finite_positive |].
  split; [now apply integer_1_to_60 |].
  split.
  - apply (proj1 (List.Forall_forall _ _) Hwords). apply nth_In. lia.
  - exists (skipn 3 parts). split; [| split; [| reflexivity]].
    + intros E. apply (f_equal (@length _)) in E.
      rewrite List.length_skipn in E. cbn in E. lia.
    + apply List.Forall_forall. intros w Hw.
      apply (proj1 (List.Forall_forall _ _) Hwords).
      rewrite <- (firstn_skipn 3 parts). apply in_or_app. now right.
Qed.

Lemma X27_accepted_command_is_well_formed_witness :
  parseCompraCommand digitsToNumber sampleCommand
  = Some {| parsedAmount := Finite (QArith_base.inject_Z 9000);
            parsedMonths := Finite (QArith_base.inject_Z 12);
            parsedBank := codeUnitsOf "rappicard";
            parsedDescription := codeUnitsOf "Pantalla Samsung 85" |} /\
  isWord (codeUnitsOf "rappicard").
Proof.
  assert (H : parseCompraCommand digitsToNumber sampleCommand
              = Some {| parsedAmount := Finite (QArith_base.inject_Z 9000);
                        parsedMonths := Finite (QArith_base.inject_Z 12);
                        parsedBank := codeUnitsOf "rappicard";
                        parsedDescription := codeUnitsOf "Pantalla Samsung 85" |})
    by (vm_compute; reflexivity).
  split; [exact H |].
  exact (proj1 (proj2 (proj2
           (X27_accepted_command_is_well_formed digitsToNumber sampleCommand _ H)))).
Defined.

Lemma splitWhiteSpace_word w l current inRun :
  w <> [] -> Forall (fun c => isWhiteSpace c = false) w ->
  splitWhiteSpace (w ++ l) current inRun
  = splitWhiteSpace l (rev w ++ current) false.
Proof.
  intros Hne Hw. revert current inRun.
  induction Hw as [| c w Hc Hw IH]; [contradiction |].
  intros current inRun. cbn [app splitWhiteSpace]. rewrite Hc.
  destruct w as [| c' w'].
  - reflexivity.
  - rewrite IH by discriminate. cbn [rev]. now rewrite <- !app_assoc.
Qed.

Lemma splitWhiteSpace_join ws :
  ws <> [] -> Forall isWord ws ->
  splitWhiteSpace (joinWithSpace ws) [] false = ws.
Proof.
  intros Hne Hall. induction Hall as [| w ws [Hw1 Hw2] Hall IH]; [contradiction |].
  destruct ws as [| w' ws'].
  - cbn [joinWithSpace]. rewrite <- (app_nil_r w) at 1.
    rewrite splitWhiteSpace_word by assumption.
    cbn [splitWhiteSpace]. now rewrite app_nil_r, rev_involutive.
  - change (joinWithSpace (w :: w' :: ws'))
      with (w ++ 32%N :: joinWithSpace (w' :: ws')).
    rewrite splitWhiteSpace_word by assumption.
    cbn [splitWhiteSpace]. change (isWhiteSpace 32) with true. cbv iota.
    rewrite app_nil_r, rev_involutive. f_equal.
    specialize (IH ltac:(discriminate)).
    inversion Hall as [| ? ? [Hw1' Hw2'] _]; subst.
    change (joinWithSpace (w' :: ws')) with (joinWithSpace (w' :: ws')) in *.
    assert (Hj : exists tail, joinWithSpace (w' :: ws') = w' ++ tail).
    { destruct ws'; [exists []; cbn; now rewrite app_nil_r | eexists; reflexivity]. }
    destruct Hj as [tail Hj]. rewrite Hj in IH |- *.
    rewrite splitWhiteSpace_word in IH |- * by assumption. exact IH.
Qed.

Lemma filter_nonEmpty_words ws :
  Forall isWord ws -> List.filter nonEmpty ws = ws.
Proof.
  induction 1 as [| w ws [Hw _] _ IH]; [reflexivity |].
  cbn [List.filter]. destruct w; [contradiction |]. cbn. now rewrite IH.
Qed.

(** X28. The description of an accepted command splits back, on white
    space, into exactly the words that follow the bank in the text: no
    word is lost, added or reordered, and runs of white space between
    them have become single spaces. *)
Theorem X28_description_keeps_the_words_after_the_bank :
  forall (Number : list N -> JSNumber) (text : list N) (r : ParsedCompra),
    parseCompraCommand Number text = Some r ->
    List.filter nonEmpty (splitWhiteSpace (parsedDescription r) [] false)
    = skipn 3 (List.filter nonEmpty
                 (splitWhiteSpace (stripCommand (trim text)) [] false)).
Proof.
  intros Number text r. unfold parseCompraCommand. cbv zeta.
  pose proof (words_are_words (stripCommand (trim text))) as Hwords.
  remember (List.filter nonEmpty (splitWhiteSpace (stripCommand (trim text)) [] false))
    as parts eqn:Eparts. clear Eparts.
  destruct (Nat.ltb_spec (length parts) 4) as [| Hlen]; [discriminate |].
  destruct (negb (isFinite _) || leInteger _ 0); [discriminate |].
  destruct (negb (isInteger _) || leInteger _ 0 || gtInteger _ 60);
    [discriminate |].
  destruct (negb (nonEmpty _) || negb (nonEmpty _)); [discriminate |].
  intros [= <-]. cbn [parsedDescription].
  assert (Hall : Forall isWord (skipn 3 parts)).
  { apply List.Forall_forall. intros w Hw.
    apply (proj1 (List.Forall_forall _ _) Hwords).
    rewrite <- (firstn_skipn 3 parts). apply in_or_app. now right. }
  assert (Hne : skipn 3 parts <> []).
  { intros E. apply (f_equal (@length _)) in E.
    rewrite List.length_skipn in E. cbn in E. lia. }
  rewrite (splitWhiteSpace_join _ Hne Hall).
  now apply filter_nonEmpty_words.
Qed.

Lemma X28_description_keeps_the_words_after_the_bank_witness :
  List.filter nonEmpty
    (splitWhiteSpace (codeUnitsOf "Pantalla Samsung 85") [] false)
  = skipn 3 (List.filter nonEmpty
               (splitWhiteSpace (stripCommand (trim sampleCommand)) [] false)).
Proof.
  apply (X28_description_keeps_the_words_after_the_bank
           digitsToNumber sampleCommand
           {| parsedAmount := Finite (QArith_base.inject_Z 9000);
              parsedMonths := Finite (QArith_base.inject_Z 12);
              parsedBank := codeUnitsOf "rappicard";
              parsedDescription := codeUnitsOf "Pantalla Samsung 85" |}).
  vm_compute. reflexivity.
Defined.
